(** * Daily-summary analytics: a shallow embedding of
    [src/services/analytics_service.py] and [src/models/data_models.py]

    Conventions of the embedding.
    - Python [int] is [Z]; Python [float] is an exact rational [Q]
      (rounding error, infinities and NaN are outside the model; equality
      of rationals is [Qeq], written [==]).
    - [str] is [string]; [Optional[T]] is [option T]; [List[T]] is [list T].
    - A Python [dict] with string keys is a [gmap string _].
    - Code that may raise lives in the error monad [result]; code that
      talks to the DynamoDB client or prints threads a log of [event]s.
    - [datetime.strptime] is library code: it enters as the parameter
      [strptime], and the readings of the clock as arguments; module
      [Strptime] gives the library's parser for the format [%Y-%m-%d].
    - Module [Double] evaluates the storage expression
      [int(x * 100) / 100] in binary64 arithmetic, where the exact
      reading and the program can differ by a cent. *)

From Stdlib Require Import ZArith QArith Qround Qminmax Lqa Lia.
From Stdlib Require Import Ascii String List Bool SpecFloat.
From stdpp Require Import base option gmap strings.
Import ListNotations.

Local Open Scope Z_scope.
Local Open Scope string_scope.
Local Open Scope list_scope.

(** ** Exceptions and the error monad *)

Inductive exn : Type :=
| ValueError (msg : string)
| ValidationError (msg : string)
| ZeroDivisionError (msg : string)
| KeyError (key : string)
| AttributeError (msg : string)
| Exception (msg : string).

Inductive result (A : Type) : Type :=
| Ok (a : A)
| Raise (e : exn).
Arguments Ok {A} a.
Arguments Raise {A} e.

Definition rbind {A B : Type} (m : result A) (k : A -> result B) : result B :=
  match m with
  | Ok a => k a
  | Raise e => Raise e
  end.

Notation "x <-- m ;; k" := (rbind m (fun x => k))
  (at level 100, m at next level, right associativity).

Definition exn_str (e : exn) : string :=
  match e with
  | ValueError m | ValidationError m | ZeroDivisionError m
  | AttributeError m | Exception m => m
  | KeyError k => k
  end.

(** ** Python numerics over exact rationals *)

Module Py.

Definition ltb (x y : Q) : bool := negb (Qle_bool y x).
Definition leb (x y : Q) : bool := Qle_bool x y.

(** [min(a, b)]: the first argument is kept unless the second is
    strictly smaller. *)
Definition min (a b : Q) : Q := if ltb b a then b else a.

(** [max(a, b)]: the first argument is kept unless the second is
    strictly larger. *)
Definition max (a b : Q) : Q := if ltb a b then b else a.

(** [max] on two [int]s. *)
Definition maxZ (a b : Z) : Z := if (a <? b)%Z then b else a.

(** [x / y], true division. *)
Definition truediv (x y : Q) : result Q :=
  if Qeq_bool y 0 then Raise (ZeroDivisionError "division by zero")
  else Ok (x / y)%Q.

(** [int(x)]: truncation toward zero. *)
Definition int (x : Q) : Z := Z.quot (Qnum x) (Zpos (Qden x)).

(** [round(x)] with one argument: nearest integer, ties to even. *)
Definition round (x : Q) : Z :=
  let f := Qfloor x in
  match Qcompare (x - inject_Z f) (1 # 2) with
  | Lt => f
  | Gt => f + 1
  | Eq => if Z.even f then f else f + 1
  end.

(** [sum(xs)] *)
Definition sum (xs : list Q) : Q := fold_left Qplus xs 0%Q.

(** [len(xs)] *)
Definition len {A : Type} (xs : list A) : Z := Z.of_nat (length xs).

End Py.

(** ** Data models ([src/models/data_models.py])

    Each pydantic model is a record; the [Field] constraints of a model
    are its [valid] predicate.  The free-form [rawData] dictionaries are
    not represented. *)

Module SleepStages.
Record t : Type := mk { light : Q; deep : Q; rem : Q; awake : Q }.
Definition valid (s : t) : Prop :=
  (0 <= light s /\ 0 <= deep s /\ 0 <= rem s /\ 0 <= awake s)%Q.
End SleepStages.

Module SleepNeeded.
Record t : Type := mk { baseline : Q; debt : Q; strain : Q; total : Q }.
Definition valid (s : t) : Prop :=
  (0 <= baseline s /\ 0 <= strain s /\ 0 <= total s)%Q.
End SleepNeeded.

Module SleepData.
Record t : Type := mk {
  userId : string;
  recordId : string;
  dataType : string;
  sleepId : string;
  startTime : Z;
  endTime : Z;
  duration : Q;
  qualityDuration : Q;
  latency : Q;
  disturbanceCount : Z;
  sleepStages : SleepStages.t;
  sleepNeeded : SleepNeeded.t;
  respiratoryRate : Q;
  heartRate : Q;
  hrv : Q;
  ttl : Z;
  createdAt : Z
}.

Definition valid (s : t) : Prop :=
  (0 <= duration s)%Q /\ (0 <= qualityDuration s)%Q /\ (0 <= latency s)%Q /\
  (0 <= disturbanceCount s)%Z /\
  SleepStages.valid (sleepStages s) /\ SleepNeeded.valid (sleepNeeded s) /\
  (0 < respiratoryRate s)%Q /\ (0 < heartRate s)%Q /\ (0 < hrv s)%Q.

(** The same record with another disturbance count. *)
Definition with_disturbanceCount (s : t) (c : Z) : t :=
  mk (userId s) (recordId s) (dataType s) (sleepId s) (startTime s)
     (endTime s) (duration s) (qualityDuration s) (latency s) c
     (sleepStages s) (sleepNeeded s) (respiratoryRate s) (heartRate s)
     (hrv s) (ttl s) (createdAt s).
End SleepData.

Module RecoveryData.
Record t : Type := mk {
  userId : string;
  recordId : string;
  dataType : string;
  cycleId : string;
  recoveryScore : Q;
  hrv : Q;
  restingHeartRate : Q;
  hrvRmssd : Q;
  spo2 : option Q;
  skinTemp : option Q;
  ttl : Z;
  createdAt : Z
}.

Definition valid (r : t) : Prop :=
  (0 <= recoveryScore r <= 100)%Q /\ (0 < hrv r)%Q /\
  (0 < restingHeartRate r)%Q /\ (0 < hrvRmssd r)%Q /\
  match spo2 r with Some x => (0 <= x <= 100)%Q | None => True end.
End RecoveryData.

Module CycleData.
Record t : Type := mk {
  userId : string;
  recordId : string;
  dataType : string;
  cycleId : string;
  startTime : Z;
  endTime : Z;
  days : list string;
  strain : Q;
  kilojoules : Q;
  averageHeartRate : Q;
  maxHeartRate : Q;
  ttl : Z;
  createdAt : Z
}.

Definition valid (c : t) : Prop :=
  (0 <= strain c <= 21)%Q /\ (0 <= kilojoules c)%Q /\
  (0 < averageHeartRate c)%Q /\ (0 < maxHeartRate c)%Q.
End CycleData.

Module PhysiologicalData.
Record t : Type := mk {
  userId : string;
  recordId : string;
  dataType : string;
  timestamp : Z;
  heartRate : Q;
  heartRateVariability : option Q;
  respiratoryRate : Q;
  skinTemp : Q;
  spo2 : option Q;
  ttl : Z;
  createdAt : Z
}.

Definition valid (p : t) : Prop :=
  (0 < heartRate p)%Q /\
  match heartRateVariability p with Some x => (0 < x)%Q | None => True end /\
  (0 < respiratoryRate p)%Q /\
  match spo2 p with Some x => (0 <= x <= 100)%Q | None => True end.
End PhysiologicalData.

Module DataCompleteness.
Record t : Type := mk {
  hasSleep : bool;
  hasRecovery : bool;
  hasWorkout : bool;
  hasCycle : bool;
  hasPhysiological : bool
}.
End DataCompleteness.

Module DailySummary.
Record t : Type := mk {
  userId : string;
  recordId : string;
  date : string;
  recoveryScore : option Q;
  sleepQualityScore : option Q;
  totalStrain : option Q;
  sleepDuration : option Q;
  averageHRV : option Q;
  restingHeartRate : option Q;
  respiratoryRate : option Q;
  dataCompleteness : DataCompleteness.t;
  computedAt : Z;
  ttl : Z
}.

(** [Field(None, ...)] constraints on an optional float. *)
Definition opt_ok (P : Q -> bool) (o : option Q) : bool :=
  match o with
  | None => true
  | Some x => P x
  end.
Definition ge (lo x : Q) : bool := Py.leb lo x.
Definition gt (lo x : Q) : bool := Py.ltb lo x.
Definition ge_le (lo hi x : Q) : bool := Py.leb lo x && Py.leb x hi.

Definition fields_ok (s : t) : bool :=
  opt_ok (ge_le 0 100) (recoveryScore s) &&
  opt_ok (ge_le 0 100) (sleepQualityScore s) &&
  opt_ok (ge_le 0 21) (totalStrain s) &&
  opt_ok (ge 0) (sleepDuration s) &&
  opt_ok (gt 0) (averageHRV s) &&
  opt_ok (gt 0) (restingHeartRate s) &&
  opt_ok (gt 0) (respiratoryRate s).

Section Validation.
(** [strptime v fmt = true] when [datetime.strptime(v, fmt)] returns
    without raising [ValueError]. *)
Variable strptime : string -> string -> bool.

Definition validate_date_format (v : string) : result string :=
  if strptime v "%Y-%m-%d" then Ok v
  else Raise (ValueError "Date must be in YYYY-MM-DD format").

(** [DailySummary(...)]: the keyword arguments are validated, and the
    object exists only if every field passes. *)
Definition new (s : t) : result t :=
  match validate_date_format (date s) with
  | Raise e => Raise (ValidationError (exn_str e))
  | Ok _ =>
      if fields_ok s then Ok s
      else Raise (ValidationError "Input should satisfy the field constraints")
  end.
End Validation.
End DailySummary.

(** ** Items of the key-value store and the client's interface *)

Inductive AttrValue : Type :=
| AStr (s : string)
| AInt (n : Z)
| AFloat (x : Q)
| ABool (b : bool)
| AMap (m : gmap string bool).

Abbreviation Item := (gmap string AttrValue).

Record QueryArgs : Type := mkQueryArgs {
  TableName : string;
  KeyConditionExpression : string;
  ExpressionAttributeValues : gmap string string;
  Limit : Z;
  ScanIndexForward : bool
}.

(** The response dictionary of [query]; [Items] may be missing. *)
Record QueryResponse : Type := mkQueryResponse { Items : option (list Item) }.

(** What the service is handed as [dynamodb_client]: each call answers
    or raises. *)
Record DynamoDBClient : Type := mkClient {
  put_item : string -> Item -> result unit;
  query : QueryArgs -> result QueryResponse
}.

Inductive event : Type :=
| EvPutItem (table : string) (item : Item)
| EvQuery (args : QueryArgs)
| EvPrint (msg : string).

Definition is_not_None {A : Type} (o : option A) : bool :=
  match o with
  | Some _ => true
  | None => false
  end.

(** Truth value of an optional float: [None] and [0.0] are false. *)
Definition truthy_float (o : option Q) : bool :=
  match o with
  | Some x => negb (Qeq_bool x 0)
  | None => false
  end.

(** Truth value of a string: the empty string is false. *)
Definition truthy_str (o : option string) : bool :=
  match o with
  | Some s => negb (String.eqb s "")
  | None => false
  end.

(** ** The service ([src/services/analytics_service.py]) *)

Record AnalyticsService : Type := mkService {
  storage_service : option unit;
  dynamodb_client : option DynamoDBClient;
  summaries_table : string
}.

(** [AnalyticsService.__init__] *)
Definition init (storage : option unit) (client : option DynamoDBClient)
  : AnalyticsService :=
  mkService storage client "daily_summaries".

Section Scorer.
Import SleepData.

(** line 49 *)
Definition duration_hours (sleep_data : SleepData.t) : result Q :=
  Py.truediv (duration sleep_data) (inject_Z (1000 * 60 * 60)).

(** lines 52-61 *)
Definition duration_score (duration_hours : Q) : Z :=
  if Py.leb 7 duration_hours && Py.leb duration_hours 9 then 40
  else if Py.leb 6 duration_hours && Py.ltb duration_hours 7 then 30
  else if Py.leb 5 duration_hours && Py.ltb duration_hours 6 then 20
  else if Py.ltb 9 duration_hours && Py.leb duration_hours 10 then 30
  else 10.

(** line 64 *)
Definition efficiency (sleep_data : SleepData.t) : result Q :=
  if Py.ltb 0 (duration sleep_data)
  then Py.truediv (qualityDuration sleep_data) (duration sleep_data)
  else Ok 0%Q.

(** line 65 *)
Definition efficiency_score (efficiency : Q) : Q :=
  Py.min 40 (efficiency * 40).

(** line 68 *)
Definition disturbance_score (sleep_data : SleepData.t) : Z :=
  Py.maxZ 0 (20 - disturbanceCount sleep_data * 2).

(** line 71 *)
Definition total_score (dur : Z) (eff : Q) (dist : Z) : Q :=
  (inject_Z dur + eff + inject_Z dist)%Q.

Definition calculate_sleep_quality_score (sleep_data : SleepData.t)
  : result Z :=
  h <-- duration_hours sleep_data ;;
  e <-- efficiency sleep_data ;;
  let total :=
    total_score (duration_score h) (efficiency_score e)
                (disturbance_score sleep_data) in
  Ok (Py.round (Py.min 100 (Py.max 0 total))).
End Scorer.

Section Summarizer.
Variable strptime : string -> string -> bool.

(** lines 120-124 *)
Definition average_hrv_of (physiological_data : option (list PhysiologicalData.t))
  : result (option Q) :=
  match physiological_data with
  | Some ((_ :: _) as ps) =>
      let hrv_values :=
        omap (fun p =>
                if truthy_float (PhysiologicalData.heartRateVariability p)
                then PhysiologicalData.heartRateVariability p else None) ps in
      match hrv_values with
      | [] => Ok None
      | _ :: _ =>
          a <-- Py.truediv (Py.sum hrv_values) (inject_Z (Py.len hrv_values)) ;;
          Ok (Some a)
      end
  | _ => Ok None
  end.

(** lines 130-134 *)
Definition respiratory_rate_of
    (physiological_data : option (list PhysiologicalData.t))
  : result (option Q) :=
  match physiological_data with
  | Some ((_ :: _) as ps) =>
      let resp_values := map PhysiologicalData.respiratoryRate ps in
      match resp_values with
      | [] => Ok None
      | _ :: _ =>
          a <-- Py.truediv (Py.sum resp_values) (inject_Z (Py.len resp_values)) ;;
          Ok (Some a)
      end
  | _ => Ok None
  end.

(** [time_time] is the reading of [time.time()] during the call.  A
    pydantic model object is always true, so [if sleep_data:] and the
    like test for [None]; [if physiological_data:] also excludes the
    empty list. *)
Definition compute_daily_summary
    (time_time : Q) (user_id date : string)
    (sleep_data : option SleepData.t)
    (recovery_data : option RecoveryData.t)
    (cycle_data : option CycleData.t)
    (physiological_data : option (list PhysiologicalData.t))
  : result DailySummary.t :=
  let completeness :=
    DataCompleteness.mk
      (is_not_None sleep_data)
      (is_not_None recovery_data)
      false
      (is_not_None cycle_data)
      (match physiological_data with
       | Some ps => (0 <? Py.len ps)%Z
       | None => false
       end) in
  let recovery_score :=
    match recovery_data with
    | Some r => Some (RecoveryData.recoveryScore r)
    | None => None
    end in
  sleep <-- match sleep_data with
            | Some s =>
                q <-- calculate_sleep_quality_score s ;;
                d <-- Py.truediv (SleepData.duration s) (inject_Z (1000 * 60 * 60)) ;;
                Ok (Some q, Some d)
            | None => Ok (None, None)
            end ;;
  let sleep_quality_score : option Z := fst sleep in
  let sleep_duration : option Q := snd sleep in
  let total_strain :=
    match cycle_data with
    | Some c => Some (CycleData.strain c)
    | None => None
    end in
  average_hrv <-- average_hrv_of physiological_data ;;
  let resting_heart_rate :=
    match recovery_data with
    | Some r => Some (RecoveryData.restingHeartRate r)
    | None => None
    end in
  respiratory_rate <-- respiratory_rate_of physiological_data ;;
  let current_time := Py.int time_time in
  let ttl := current_time + (30 * 24 * 60 * 60) in
  DailySummary.new strptime
    (DailySummary.mk
       user_id
       ("summary#" +:+ date)
       date
       recovery_score
       (option_map inject_Z sleep_quality_score)
       total_strain
       sleep_duration
       average_hrv
       resting_heart_rate
       respiratory_rate
       completeness
       current_time
       ttl).
End Summarizer.


Section Store.
Variable strptime : string -> string -> bool.

(** [int(x * 100) / 100], read in exact arithmetic ([Double.two_decimals]
    is its evaluation in binary64). *)
Definition two_decimals (x : Q) : result Q :=
  Py.truediv (inject_Z (Py.int (x * 100))) 100.

(** [if v is not None: item[key] = int(v * 100) / 100] *)
Definition put_metric (key : string) (v : option Q) (item : Item)
  : result Item :=
  match v with
  | Some x => y <-- two_decimals x ;; Ok (<[key := AFloat y]> item)
  | None => Ok item
  end.

(** lines 187-220: the item handed to [put_item] *)
Definition summary_item (summary : DailySummary.t) : result Item :=
  let item : Item :=
    <["ttl" := AInt (DailySummary.ttl summary)]>
    (<["computedAt" := AInt (DailySummary.computedAt summary)]>
    (<["date" := AStr (DailySummary.date summary)]>
    (<["recordId" := AStr (DailySummary.recordId summary)]>
    (<["userId" := AStr (DailySummary.userId summary)]> ∅)))) in
  item <-- put_metric "recoveryScore" (DailySummary.recoveryScore summary) item ;;
  item <-- put_metric "sleepQualityScore" (DailySummary.sleepQualityScore summary) item ;;
  item <-- put_metric "totalStrain" (DailySummary.totalStrain summary) item ;;
  item <-- put_metric "sleepDuration" (DailySummary.sleepDuration summary) item ;;
  item <-- put_metric "averageHRV" (DailySummary.averageHRV summary) item ;;
  item <-- put_metric "restingHeartRate" (DailySummary.restingHeartRate summary) item ;;
  item <-- put_metric "respiratoryRate" (DailySummary.respiratoryRate summary) item ;;
  let c := DailySummary.dataCompleteness summary in
  Ok (<["dataCompleteness" :=
          AMap (<["hasPhysiological" := DataCompleteness.hasPhysiological c]>
               (<["hasCycle" := DataCompleteness.hasCycle c]>
               (<["hasWorkout" := DataCompleteness.hasWorkout c]>
               (<["hasRecovery" := DataCompleteness.hasRecovery c]>
               (<["hasSleep" := DataCompleteness.hasSleep c]> ∅)))))]> item).

(** A call returns a value or raises, and extends the log of what was
    sent to the client and printed. *)
Definition io (A : Type) : Type := list event -> result A * list event.

Definition store_daily_summary (self : AnalyticsService)
    (summary : DailySummary.t) : io bool :=
  fun log =>
    match dynamodb_client self with
    | None => (Raise (ValueError "DynamoDB client not configured"), log)
    | Some client =>
        match summary_item summary with
        | Raise e =>
            (Ok false, log ++ [EvPrint ("Error storing daily summary: " +:+ exn_str e)])
        | Ok item =>
            let log := log ++ [EvPutItem (summaries_table self) item] in
            match put_item client (summaries_table self) item with
            | Ok _ => (Ok true, log)
            | Raise e =>
                (Ok false,
                 log ++ [EvPrint ("Error storing daily summary: " +:+ exn_str e)])
            end
        end
    end.

(** [item[key]] *)
Definition getitem (item : Item) (key : string) : result AttrValue :=
  match item !! key with
  | Some v => Ok v
  | None => Raise (KeyError key)
  end.

(** Field validation of the stored attributes on reconstruction, by the
    declared type of the field; pydantic's coercion of numeric strings
    and the like is not represented. *)
Definition as_str (v : AttrValue) : result string :=
  match v with
  | AStr s => Ok s
  | _ => Raise (ValidationError "Input should be a valid string")
  end.

Definition as_int (v : AttrValue) : result Z :=
  match v with
  | AInt n => Ok n
  | _ => Raise (ValidationError "Input should be a valid integer")
  end.

Definition as_opt_float (v : option AttrValue) : result (option Q) :=
  match v with
  | None => Ok None
  | Some (AFloat x) => Ok (Some x)
  | Some (AInt n) => Ok (Some (inject_Z n))
  | Some _ => Raise (ValidationError "Input should be a valid number")
  end.

(** lines 300-326 *)
Definition item_to_summary_body (item : Item) : result DailySummary.t :=
  completeness_data <--
    match item !! "dataCompleteness" with
    | None => Ok ∅
    | Some (AMap m) => Ok m
    | Some _ => Raise (AttributeError "object has no attribute 'get'")
    end ;;
  let completeness :=
    DataCompleteness.mk
      (default false (completeness_data !! "hasSleep"))
      (default false (completeness_data !! "hasRecovery"))
      (default false (completeness_data !! "hasWorkout"))
      (default false (completeness_data !! "hasCycle"))
      (default false (completeness_data !! "hasPhysiological")) in
  userId <-- getitem item "userId" ;;
  recordId <-- getitem item "recordId" ;;
  date <-- getitem item "date" ;;
  computedAt <-- getitem item "computedAt" ;;
  ttl <-- getitem item "ttl" ;;
  userId <-- as_str userId ;;
  recordId <-- as_str recordId ;;
  date <-- as_str date ;;
  recoveryScore <-- as_opt_float (item !! "recoveryScore") ;;
  sleepQualityScore <-- as_opt_float (item !! "sleepQualityScore") ;;
  totalStrain <-- as_opt_float (item !! "totalStrain") ;;
  sleepDuration <-- as_opt_float (item !! "sleepDuration") ;;
  averageHRV <-- as_opt_float (item !! "averageHRV") ;;
  restingHeartRate <-- as_opt_float (item !! "restingHeartRate") ;;
  respiratoryRate <-- as_opt_float (item !! "respiratoryRate") ;;
  computedAt <-- as_int computedAt ;;
  ttl <-- as_int ttl ;;
  DailySummary.new strptime
    (DailySummary.mk userId recordId date recoveryScore sleepQualityScore
       totalStrain sleepDuration averageHRV restingHeartRate respiratoryRate
       completeness computedAt ttl).

(** [_item_to_summary]: a failed conversion is printed and yields [None]. *)
Definition item_to_summary (self : AnalyticsService) (item : Item)
  : list event -> option DailySummary.t * list event :=
  fun log =>
    match item_to_summary_body item with
    | Ok s => (Some s, log)
    | Raise e =>
        (None, log ++ [EvPrint ("Error converting item to summary: " +:+ exn_str e)])
    end.

(** lines 278-282 *)
Fixpoint convert_items (self : AnalyticsService) (items : list Item)
    (summaries : list DailySummary.t) (log : list event)
  : list DailySummary.t * list event :=
  match items with
  | [] => (summaries, log)
  | item :: rest =>
      match item_to_summary self item log with
      | (Some summary, log) =>
          convert_items self rest (summaries ++ [summary]) log
      | (None, log) => convert_items self rest summaries log
      end
  end.

(** [today] and [thirty_days_ago] are what
    [datetime.now().strftime('%Y-%m-%d')] and
    [(datetime.now() - timedelta(days=30)).strftime('%Y-%m-%d')]
    evaluate to during the call. *)
Definition get_daily_summaries (self : AnalyticsService)
    (today thirty_days_ago : string)
    (user_id : string) (start_date end_date : option string) (limit : Z)
  : io (list DailySummary.t) :=
  fun log =>
    match dynamodb_client self with
    | None => (Raise (ValueError "DynamoDB client not configured"), log)
    | Some client =>
        let end_date :=
          if truthy_str end_date then default "" end_date else today in
        let start_date :=
          if truthy_str start_date then default "" start_date
          else thirty_days_ago in
        let args :=
          mkQueryArgs
            (summaries_table self)
            "userId = :userId AND recordId BETWEEN :start AND :end"
            (<[":end" := "summary#" +:+ end_date]>
            (<[":start" := "summary#" +:+ start_date]>
            (<[":userId" := user_id]> ∅)))
            limit
            false in
        let log := log ++ [EvQuery args] in
        match query client args with
        | Raise e =>
            (Ok [], log ++ [EvPrint ("Error retrieving daily summaries: " +:+ exn_str e)])
        | Ok response =>
            let (summaries, log) :=
              convert_items self (default [] (Items response)) [] log in
            (Ok summaries, log)
        end
    end.
End Store.

(** ** Sample data (the fixtures of [tests/test_analytics_service.py]) *)

Module Sample.

Definition is_digit (c : Ascii.ascii) : bool :=
  let n := Ascii.nat_of_ascii c in (48 <=? n)%nat && (n <=? 57)%nat.

(** A date parser to run the model with: four digits, two digits, two
    digits, separated by dashes. *)
Definition strptime (v fmt : string) : bool :=
  String.eqb fmt "%Y-%m-%d" &&
  match list_ascii_of_string v with
  | [y1; y2; y3; y4; s1; m1; m2; s2; d1; d2] =>
      forallb is_digit [y1; y2; y3; y4; m1; m2; d1; d2] &&
      Ascii.eqb s1 "-"%char && Ascii.eqb s2 "-"%char
  | _ => false
  end.

Definition eight_hours_ms : Z := 8 * 60 * 60 * 1000.

Definition sleep (duration_ms : Z) (quality : Q) (disturbances : Z)
  : SleepData.t :=
  SleepData.mk "test-user-123" "sleep#1234567890" "sleep" "whoop-sleep-123"
    0 duration_ms (inject_Z duration_ms) (inject_Z duration_ms * quality)
    300000 disturbances
    (SleepStages.mk (inject_Z duration_ms * (45 # 100))
                    (inject_Z duration_ms * (20 # 100))
                    (inject_Z duration_ms * (25 # 100))
                    (inject_Z duration_ms * (10 # 100)))
    (SleepNeeded.mk (inject_Z duration_ms) 0 0 (inject_Z duration_ms))
    15 55 65 2592000 0.

Definition sample_sleep_data : SleepData.t := sleep eight_hours_ms (9 # 10) 2.

Definition sample_recovery_data : RecoveryData.t :=
  RecoveryData.mk "test-user-123" "recovery#1234567890" "recovery" "cycle-123"
    75 65 55 45 (Some 98%Q) (Some (355 # 10)) 2592000 0.

Definition sample_cycle_data : CycleData.t :=
  CycleData.mk "test-user-123" "cycle#1234567890" "cycle" "cycle-123"
    0 86400000 ["2024-02-06"] (125 # 10) 8500 70 150 2592000 0.

Definition physio (i : Z) (hrv : option Q) : PhysiologicalData.t :=
  PhysiologicalData.mk "test-user-123" "physiological#0" "physiological"
    (0 - i * 3600000) (60 + inject_Z i) hrv 15 (355 # 10) (Some 98%Q)
    2592000 0.

Definition sample_physiological_data : list PhysiologicalData.t :=
  map (fun i => physio i (Some (65 + inject_Z i * 2)%Q)) [0; 1; 2; 3; 4].

Definition mock_dynamodb : DynamoDBClient :=
  mkClient (fun _ _ => Ok tt) (fun _ => Ok (mkQueryResponse (Some []))).

(** A summary with a recovery score that has more than two decimals. *)
Definition sample_summary : DailySummary.t :=
  DailySummary.mk "test-user" "summary#2024-02-06" "2024-02-06"
    (Some (75999 # 1000)) (Some 92%Q) None (Some 8%Q) None (Some 55%Q) None
    (DataCompleteness.mk true true false false false)
    1700000000 1702592000.

Definition service : AnalyticsService := init None (Some mock_dynamodb).

Definition unconfigured_service : AnalyticsService := init None None.

End Sample.

(** ** Specification-side definitions and closed forms *)

(** Nearest integer, ties to the even neighbour (the rounding rule the
    specification names). *)
Definition round_half_even (x : Q) (z : Z) : Prop :=
  (inject_Z z - (1 # 2) <= x <= inject_Z z + (1 # 2))%Q /\
  ((x == inject_Z z - (1 # 2) \/ x == inject_Z z + (1 # 2))%Q ->
   Z.even z = true).

(** The arithmetic mean, as the specification means it. *)
Definition mean (xs : list Q) : Q :=
  (fold_right Qplus 0 xs / inject_Z (Z.of_nat (length xs)))%Q.

(** The HRV values of the samples that have one. *)
Definition hrv_values_of (physiological_data : option (list PhysiologicalData.t))
  : list Q :=
  omap PhysiologicalData.heartRateVariability (default [] physiological_data).

Definition supplied_nonempty {A : Type} (o : option (list A)) : Prop :=
  exists l, o = Some l /\ l <> [].

(** Validity of the optional inputs of [compute_daily_summary]. *)
Definition valid_inputs
    (sleep_data : option SleepData.t)
    (recovery_data : option RecoveryData.t)
    (cycle_data : option CycleData.t)
    (physiological_data : option (list PhysiologicalData.t)) : Prop :=
  from_option SleepData.valid True sleep_data /\
  from_option RecoveryData.valid True recovery_data /\
  from_option CycleData.valid True cycle_data /\
  from_option (Forall PhysiologicalData.valid) True physiological_data.

(** The mean the code computes for a non-empty list. *)
Definition py_mean (xs : list Q) : Q := (Py.sum xs / inject_Z (Py.len xs))%Q.

(** Which samples the comprehension of line 122 keeps. *)
Definition truthy_hrv_values (ps : list PhysiologicalData.t) : list Q :=
  omap (fun p =>
          if truthy_float (PhysiologicalData.heartRateVariability p)
          then PhysiologicalData.heartRateVariability p else None) ps.

Definition opt_mean (xs : list Q) : option Q :=
  match xs with
  | [] => None
  | _ :: _ => Some (py_mean xs)
  end.

(** The value [calculate_sleep_quality_score] returns, in closed form. *)
Definition efficiency_of (s : SleepData.t) : Q :=
  if Py.ltb 0 (SleepData.duration s)
  then (SleepData.qualityDuration s / SleepData.duration s)%Q
  else 0%Q.

Definition sleep_score_of (s : SleepData.t) : Z :=
  Py.round (Py.min 100 (Py.max 0
    (total_score (duration_score (SleepData.duration s / 3600000)%Q)
                 (efficiency_score (efficiency_of s))
                 (disturbance_score s)))).

(** The keyword arguments [compute_daily_summary] hands to
    [DailySummary(...)]. *)
Definition summary_fields
    (time_time : Q) (user_id date : string)
    (sleep_data : option SleepData.t)
    (recovery_data : option RecoveryData.t)
    (cycle_data : option CycleData.t)
    (physiological_data : option (list PhysiologicalData.t))
  : DailySummary.t :=
  DailySummary.mk
    user_id ("summary#" +:+ date) date
    (option_map RecoveryData.recoveryScore recovery_data)
    (option_map (fun s => inject_Z (sleep_score_of s)) sleep_data)
    (option_map CycleData.strain cycle_data)
    (option_map (fun s => (SleepData.duration s / 3600000)%Q) sleep_data)
    (opt_mean (truthy_hrv_values (default [] physiological_data)))
    (option_map RecoveryData.restingHeartRate recovery_data)
    (opt_mean (map PhysiologicalData.respiratoryRate
                   (default [] physiological_data)))
    (DataCompleteness.mk
       (is_not_None sleep_data) (is_not_None recovery_data) false
       (is_not_None cycle_data)
       (match physiological_data with
        | Some ps => (0 <? Py.len ps)%Z
        | None => false
        end))
    (Py.int time_time)
    (Py.int time_time + 30 * 24 * 60 * 60).

(** The declared field constraints of [DailySummary], as propositions. *)
Definition valid_summary (s : DailySummary.t) : Prop :=
  from_option (fun x => 0 <= x <= 100)%Q True (DailySummary.recoveryScore s) /\
  from_option (fun x => 0 <= x <= 100)%Q True (DailySummary.sleepQualityScore s) /\
  from_option (fun x => 0 <= x <= 21)%Q True (DailySummary.totalStrain s) /\
  from_option (fun x => 0 <= x)%Q True (DailySummary.sleepDuration s) /\
  from_option (fun x => 0 < x)%Q True (DailySummary.averageHRV s) /\
  from_option (fun x => 0 < x)%Q True (DailySummary.restingHeartRate s) /\
  from_option (fun x => 0 < x)%Q True (DailySummary.respiratoryRate s).

(** The presence rule as first stated: every optional field of the
    summary is present exactly when its source was supplied (and, for the
    physiological list, non-empty). *)
Definition presence_as_stated
    (sl : option SleepData.t) (rc : option RecoveryData.t)
    (cy : option CycleData.t) (ph : option (list PhysiologicalData.t))
    (s : DailySummary.t) : Prop :=
  (is_Some (DailySummary.recoveryScore s) <-> is_Some rc) /\
  (is_Some (DailySummary.restingHeartRate s) <-> is_Some rc) /\
  (is_Some (DailySummary.totalStrain s) <-> is_Some cy) /\
  (is_Some (DailySummary.sleepQualityScore s) <-> is_Some sl) /\
  (is_Some (DailySummary.sleepDuration s) <-> is_Some sl) /\
  (is_Some (DailySummary.averageHRV s) <-> supplied_nonempty ph) /\
  (is_Some (DailySummary.respiratoryRate s) <-> supplied_nonempty ph).

(** The optional numeric fields of a summary, with their item keys. *)
Definition optional_metrics : list (string * (DailySummary.t -> option Q)) :=
  [("recoveryScore", DailySummary.recoveryScore);
   ("sleepQualityScore", DailySummary.sleepQualityScore);
   ("totalStrain", DailySummary.totalStrain);
   ("sleepDuration", DailySummary.sleepDuration);
   ("averageHRV", DailySummary.averageHRV);
   ("restingHeartRate", DailySummary.restingHeartRate);
   ("respiratoryRate", DailySummary.respiratoryRate)].

(** [y] is [x] cut to two decimals toward zero: a multiple of 1/100,
    at most 1/100 from [x], on the side of zero (a relation on exact
    values). *)
Definition truncated_two_decimals (x y : Q) : Prop :=
  (exists n : Z, y == inject_Z n / 100)%Q /\
  ((0 <= x)%Q -> (y <= x < y + 1 / 100)%Q) /\
  ((x <= 0)%Q -> (y - 1 / 100 < x <= y)%Q).

(** [put_metric] without the error monad. *)
Definition put_metric_pure (key : string) (v : option Q) (item : Item) : Item :=
  match v with
  | Some x => <[key := AFloat (inject_Z (Py.int (x * 100)) / 100)%Q]> item
  | None => item
  end.

(** The item of lines 187-220 in closed form. *)
Definition flags_map (c : DataCompleteness.t) : gmap string bool :=
  <["hasPhysiological" := DataCompleteness.hasPhysiological c]>
  (<["hasCycle" := DataCompleteness.hasCycle c]>
  (<["hasWorkout" := DataCompleteness.hasWorkout c]>
  (<["hasRecovery" := DataCompleteness.hasRecovery c]>
  (<["hasSleep" := DataCompleteness.hasSleep c]> ∅)))).

Definition item_of (s : DailySummary.t) : Item :=
  <["dataCompleteness" := AMap (flags_map (DailySummary.dataCompleteness s))]>
  (put_metric_pure "respiratoryRate" (DailySummary.respiratoryRate s)
  (put_metric_pure "restingHeartRate" (DailySummary.restingHeartRate s)
  (put_metric_pure "averageHRV" (DailySummary.averageHRV s)
  (put_metric_pure "sleepDuration" (DailySummary.sleepDuration s)
  (put_metric_pure "totalStrain" (DailySummary.totalStrain s)
  (put_metric_pure "sleepQualityScore" (DailySummary.sleepQualityScore s)
  (put_metric_pure "recoveryScore" (DailySummary.recoveryScore s)
  (<["ttl" := AInt (DailySummary.ttl s)]>
  (<["computedAt" := AInt (DailySummary.computedAt s)]>
  (<["date" := AStr (DailySummary.date s)]>
  (<["recordId" := AStr (DailySummary.recordId s)]>
  (<["userId" := AStr (DailySummary.userId s)]> ∅)))))))))))).

(** The keys every stored item carries. *)
Definition mandatory_keys : list string :=
  ["userId"; "recordId"; "date"; "computedAt"; "ttl"].

(** The same sleep record with another quality duration. *)
Definition with_qualityDuration (s : SleepData.t) (q : Q) : SleepData.t :=
  SleepData.mk (SleepData.userId s) (SleepData.recordId s)
    (SleepData.dataType s) (SleepData.sleepId s) (SleepData.startTime s)
    (SleepData.endTime s) (SleepData.duration s) q (SleepData.latency s)
    (SleepData.disturbanceCount s) (SleepData.sleepStages s)
    (SleepData.sleepNeeded s) (SleepData.respiratoryRate s)
    (SleepData.heartRate s) (SleepData.hrv s) (SleepData.ttl s)
    (SleepData.createdAt s).

(** [int(x * 100) / 100] as a value. *)
Definition cut2 (x : Q) : Q := (inject_Z (Py.int (x * 100)) / 100)%Q.

(** The summary with every present optional metric cut to two decimals. *)
Definition truncate_metrics (s : DailySummary.t) : DailySummary.t :=
  DailySummary.mk
    (DailySummary.userId s) (DailySummary.recordId s) (DailySummary.date s)
    (option_map cut2 (DailySummary.recoveryScore s))
    (option_map cut2 (DailySummary.sleepQualityScore s))
    (option_map cut2 (DailySummary.totalStrain s))
    (option_map cut2 (DailySummary.sleepDuration s))
    (option_map cut2 (DailySummary.averageHRV s))
    (option_map cut2 (DailySummary.restingHeartRate s))
    (option_map cut2 (DailySummary.respiratoryRate s))
    (DailySummary.dataCompleteness s)
    (DailySummary.computedAt s) (DailySummary.ttl s).

(** The optional fields declared strictly positive, with their keys. *)
Definition positive_metrics : list (string * (DailySummary.t -> option Q)) :=
  [("averageHRV", DailySummary.averageHRV);
   ("restingHeartRate", DailySummary.restingHeartRate);
   ("respiratoryRate", DailySummary.respiratoryRate)].

(** Every present strictly positive field is at least 0.01. *)
Definition survives_cut (s : DailySummary.t) : Prop :=
  forall k f x, In (k, f) positive_metrics -> f s = Some x -> (1 # 100 <= x)%Q.

(** The summaries a list of stored items converts to, in order. *)
Definition convertible (strptime : string -> string -> bool)
    (items : list Item) : list DailySummary.t :=
  omap (fun item =>
          match item_to_summary_body strptime item with
          | Ok s => Some s
          | Raise _ => None
          end) items.

Definition is_print (ev : event) : Prop :=
  match ev with
  | EvPrint _ => True
  | _ => False
  end.

(** The arguments [get_daily_summaries] passes to [query]. *)
Definition query_args (self : AnalyticsService)
    (today thirty_days_ago user_id : string)
    (start_date end_date : option string) (limit : Z) : QueryArgs :=
  mkQueryArgs
    (summaries_table self)
    "userId = :userId AND recordId BETWEEN :start AND :end"
    (<[":end" := "summary#" +:+
                 (if truthy_str end_date then default "" end_date else today)]>
    (<[":start" := "summary#" +:+
                   (if truthy_str start_date then default "" start_date
                    else thirty_days_ago)]>
    (<[":userId" := user_id]> ∅)))
    limit
    false.

(** A store that answers every query with the same items. *)
Definition client_holding (items : list Item) : DynamoDBClient :=
  mkClient (fun _ _ => Ok tt) (fun _ => Ok (mkQueryResponse (Some items))).

(** ** The library's date parser

    [datetime.strptime(v, '%Y-%m-%d')] as CPython's [_strptime] does it:
    the regular expression of the format is matched at the start of the
    string, with the alternatives of each directive tried in order; the
    match must consume the whole string; the fields must name a date of
    the calendar.  Strings are ASCII. *)

Module Strptime.

(** The value of an ASCII decimal digit. *)
Definition digit (c : ascii) : option Z :=
  let n := Z.of_N (N_of_ascii c) in
  if ((48 <=? n) && (n <=? 57))%Z then Some (n - 48) else None.

(** One alternative of a directive's regular expression: it consumes a
    prefix and yields the number read and what is left. *)
Definition alt : Type := list ascii -> option (Z * list ascii).

Definition between (lo hi n : Z) : bool := ((lo <=? n) && (n <=? hi))%Z.

(** Two digits, the first in [a1..b1] and the second in [a2..b2]. *)
Definition two (a1 b1 a2 b2 : Z) : alt :=
  fun s =>
    match s with
    | c1 :: c2 :: r =>
        match digit c1, digit c2 with
        | Some x, Some y =>
            if between a1 b1 x && between a2 b2 y then Some (10 * x + y, r)
            else None
        | _, _ => None
        end
    | _ => None
    end.

(** One digit in [a..b]. *)
Definition one (a b : Z) : alt :=
  fun s =>
    match s with
    | c :: r =>
        match digit c with
        | Some x => if between a b x then Some (x, r) else None
        | None => None
        end
    | [] => None
    end.

(** A space, then one digit in [1..9]. *)
Definition space_one : alt :=
  fun s =>
    match s with
    | c :: r => if Ascii.eqb c " " then one 1 9 r else None
    | [] => None
    end.

(** [%Y]: [\d\d\d\d] *)
Definition re_Y : alt :=
  fun s =>
    match s with
    | c1 :: c2 :: c3 :: c4 :: r =>
        match digit c1, digit c2, digit c3, digit c4 with
        | Some a, Some b, Some c, Some d =>
            Some (1000 * a + 100 * b + 10 * c + d, r)
        | _, _, _, _ => None
        end
    | _ => None
    end.

(** [%m]: [1[0-2]|0[1-9]|[1-9]] *)
Definition re_m : list alt := [two 1 1 0 2; two 0 0 1 9; one 1 9].

(** [%d]: [3[0-1]|[1-2]\d|0[1-9]|[1-9]| [1-9]] *)
Definition re_d : list alt :=
  [two 3 3 0 1; two 1 2 0 9; two 0 0 1 9; one 1 9; space_one].

(** The first alternative, in order, after which the rest of the pattern
    [k] matches. *)
Fixpoint first_match {A : Type} (alts : list alt)
    (k : Z -> list ascii -> option A) (s : list ascii) : option A :=
  match alts with
  | [] => None
  | a :: rest =>
      match a s with
      | Some (v, r) =>
          match k v r with
          | Some x => Some x
          | None => first_match rest k s
          end
      | None => first_match rest k s
      end
  end.

Definition dash (s : list ascii) : option (list ascii) :=
  match s with
  | c :: r => if Ascii.eqb c "-" then Some r else None
  | [] => None
  end.

(** [format_regex.match(data_string)] for the format [%Y-%m-%d]: year,
    month, day and the unconverted rest. *)
Definition regex_match (s : list ascii) : option (Z * Z * Z * list ascii) :=
  match re_Y s with
  | Some (y, r) =>
      match dash r with
      | Some r =>
          first_match re_m
            (fun m r =>
               match dash r with
               | Some r => first_match re_d (fun d r => Some (y, m, d, r)) r
               | None => None
               end) r
      | None => None
      end
  | None => None
  end.

Definition is_leap (y : Z) : bool :=
  ((y mod 4 =? 0) && (negb (y mod 100 =? 0) || (y mod 400 =? 0)))%Z.

Definition days_in_month (y m : Z) : Z :=
  if (m =? 2)%Z then (if is_leap y then 29 else 28)
  else if ((m =? 4) || (m =? 6) || (m =? 9) || (m =? 11))%Z then 30
  else 31.

(** [datetime.date(y, m, d)] exists. *)
Definition date_ok (y m d : Z) : bool :=
  between 1 9999 y && between 1 12 m && between 1 (days_in_month y m) d.

Definition parse_Ymd (v : string) : bool :=
  match regex_match (list_ascii_of_string v) with
  | Some (y, m, d, []) => date_ok y m d
  | _ => false
  end.

Definition strptime (v fmt : string) : bool :=
  String.eqb fmt "%Y-%m-%d" && parse_Ymd v.

(** A date in the format YYYY-MM-DD. *)
Definition iso_date (v : string) : bool :=
  match list_ascii_of_string v with
  | [y1; y2; y3; y4; s1; m1; m2; s2; d1; d2] =>
      match digit y1, digit y2, digit y3, digit y4,
            digit m1, digit m2, digit d1, digit d2 with
      | Some a, Some b, Some c, Some d, Some e, Some f, Some g, Some h =>
          Ascii.eqb s1 "-" && Ascii.eqb s2 "-" &&
          date_ok (1000 * a + 100 * b + 10 * c + d) (10 * e + f) (10 * g + h)
      | _, _, _, _, _, _, _, _ => false
      end
  | _ => false
  end.

End Strptime.

(** ** The storage expression in binary64 arithmetic

    Python's [float] is IEEE 754 binary64 with round-to-nearest-even,
    which [SpecFloat] specifies. *)

Module Double.

Definition prec : Z := 53.
Definition emax : Z := 1024.

Definition t : Type := spec_float.

(** [x * y] on two floats. *)
Definition mul (x y : t) : t := SFmul prec emax x y.

Definition ltb (x y : t) : bool := SFltb x y.

(** [float(n)], the conversion of an [int] operand in mixed arithmetic. *)
Definition of_int (n : Z) : t := binary_normalize prec emax n 0 false.

(** [int(x)]: truncation toward zero; infinities and NaN raise. *)
Definition int (x : t) : result Z :=
  match x with
  | S754_zero _ => Ok 0
  | S754_finite s m e =>
      let a := match e with
               | Zneg p => Z.shiftr (Zpos m) (Zpos p)
               | _ => Z.shiftl (Zpos m) e
               end in
      Ok (if s then - a else a)
  | S754_infinity _ =>
      Raise (Exception "OverflowError: cannot convert float infinity to integer")
  | S754_nan => Raise (ValueError "cannot convert float NaN to integer")
  end.

(** An [int] as an exact operand of a division. *)
Definition finite_of_int (n : Z) : t :=
  match n with
  | Z0 => S754_zero false
  | Zpos p => S754_finite false p 0
  | Zneg p => S754_finite true p 0
  end.

(** [a / b] on two [int]s: the double nearest to the quotient. *)
Definition int_truediv (a b : Z) : result t :=
  if (b =? 0)%Z then Raise (ZeroDivisionError "division by zero")
  else match SFdiv prec emax (finite_of_int a) (finite_of_int b) with
       | S754_infinity _ =>
           Raise (Exception "OverflowError: integer division result too large for a float")
       | q => Ok q
       end.

(** [int(x * 100) / 100] *)
Definition two_decimals (x : t) : result t :=
  k <-- int (mul x (of_int 100)) ;;
  int_truediv k 100.

(** The double a decimal literal [n / 10^k] denotes: the nearest one. *)
Definition decimal (n : Z) (k : nat) : t :=
  match int_truediv n (10 ^ Z.of_nat k) with
  | Ok q => q
  | Raise _ => S754_nan
  end.

(** The exact value of a finite double. *)
Definition to_Q (x : t) : Q :=
  match x with
  | S754_finite s m e =>
      let v := match e with
               | Zneg p => (Zpos m # (2 ^ p))%Q
               | _ => inject_Z (Z.shiftl (Zpos m) e)
               end in
      if s then Qopp v else v
  | _ => 0%Q
  end.

End Double.

(** * Properties *)

(** ** Comparisons, [min], [max] and [round] on rationals *)

Lemma leb_le (x y : Q) : Py.leb x y = true <-> (x <= y)%Q.
Proof. apply Qle_bool_iff. Qed.

Lemma ltb_lt (x y : Q) : Py.ltb x y = true <-> (x < y)%Q.
Proof.
  unfold Py.ltb. rewrite negb_true_iff.
  split; intros H.
  - apply Qnot_le_lt. intros Hle. apply Qle_bool_iff in Hle. congruence.
  - destruct (Qle_bool y x) eqn:E; [|reflexivity].
    apply Qle_bool_iff in E. exfalso. apply (Qlt_not_le _ _ H E).
Qed.

Lemma leb_nle (x y : Q) : Py.leb x y = false <-> (y < x)%Q.
Proof.
  split; intros H.
  - apply Qnot_le_lt. intros Hle. apply leb_le in Hle. congruence.
  - destruct (Py.leb x y) eqn:E; [|reflexivity].
    apply leb_le in E. exfalso. apply (Qlt_not_le _ _ H E).
Qed.

Lemma ltb_nlt (x y : Q) : Py.ltb x y = false <-> (y <= x)%Q.
Proof.
  split; intros H.
  - apply Qnot_lt_le. intros Hlt. apply ltb_lt in Hlt. congruence.
  - destruct (Py.ltb x y) eqn:E; [|reflexivity].
    apply ltb_lt in E. exfalso. apply (Qlt_not_le _ _ E H).
Qed.

(** Case analysis on a Python comparison, leaving the order fact. *)
Ltac cmp_cases :=
  repeat match goal with
  | |- context [Py.leb ?x ?y] =>
      let E := fresh "E" in
      destruct (Py.leb x y) eqn:E;
      [apply leb_le in E | apply leb_nle in E]
  | |- context [Py.ltb ?x ?y] =>
      let E := fresh "E" in
      destruct (Py.ltb x y) eqn:E;
      [apply ltb_lt in E | apply ltb_nlt in E]
  end.

Lemma min_is_Qmin (a b : Q) : (Py.min a b == Qmin a b)%Q.
Proof.
  unfold Py.min. cmp_cases.
  - symmetry. apply Q.min_r. lra.
  - symmetry. apply Q.min_l. exact E.
Qed.

Lemma max_is_Qmax (a b : Q) : (Py.max a b == Qmax a b)%Q.
Proof.
  unfold Py.max. cmp_cases.
  - symmetry. apply Q.max_r. lra.
  - symmetry. apply Q.max_l. exact E.
Qed.

Lemma min_le_mono (c x y : Q) : (x <= y)%Q -> (Py.min c x <= Py.min c y)%Q.
Proof. intros H. unfold Py.min. cmp_cases; lra. Qed.

Lemma max_le_mono (c x y : Q) : (x <= y)%Q -> (Py.max c x <= Py.max c y)%Q.
Proof. intros H. unfold Py.max. cmp_cases; lra. Qed.

Lemma clamp_bounds (x : Q) :
  (0 <= Py.min 100 (Py.max 0 x) <= 100)%Q.
Proof. unfold Py.min, Py.max. cmp_cases; lra. Qed.

Lemma maxZ_is_Zmax (a b : Z) : Py.maxZ a b = Z.max a b.
Proof. unfold Py.maxZ. destruct (Z.ltb_spec a b); lia. Qed.

Lemma floor_bounds (x : Q) :
  (inject_Z (Qfloor x) <= x < inject_Z (Qfloor x) + 1)%Q.
Proof.
  split; [apply Qfloor_le|].
  pose proof (Qlt_floor x) as H. rewrite inject_Z_plus in H. exact H.
Qed.

(** [inject_Z (n + 1)] as [inject_Z n + 1], for [lra]. *)
Ltac inj_succ :=
  rewrite ?inject_Z_plus; change (inject_Z 1) with 1%Q.

Lemma round_is_half_even (x : Q) : round_half_even x (Py.round x).
Proof.
  unfold round_half_even, Py.round.
  pose proof (floor_bounds x) as [Hlo Hhi].
  destruct (Qcompare_spec (x - inject_Z (Qfloor x)) (1 # 2)) as [E|E|E].
  - destruct (Z.even (Qfloor x)) eqn:Ev.
    + split; [lra|]. intros _. exact Ev.
    + inj_succ. split; [lra|]. intros _.
      rewrite Z.even_add, Ev. reflexivity.
  - split; [lra|]. intros [H|H]; lra.
  - inj_succ. split; [lra|]. intros [H|H]; lra.
Qed.

Lemma round_le_mono (x y : Q) : (x <= y)%Q -> (Py.round x <= Py.round y)%Z.
Proof.
  intros Hxy.
  destruct (round_is_half_even x) as [[Hx1 Hx2] Hxe].
  destruct (round_is_half_even y) as [[Hy1 Hy2] Hye].
  assert (Hle : (inject_Z (Py.round x) <= inject_Z (Py.round y + 1))%Q)
    by (inj_succ; lra).
  rewrite <- Zle_Qle in Hle.
  destruct (Z.eq_dec (Py.round x) (Py.round y + 1)) as [Heq|Hne]; [|lia].
  exfalso.
  assert (Hq : (inject_Z (Py.round x) == inject_Z (Py.round y) + 1)%Q)
    by (rewrite Heq; inj_succ; reflexivity).
  assert (Ex : Z.even (Py.round x) = true) by (apply Hxe; left; lra).
  assert (Ey : Z.even (Py.round y) = true) by (apply Hye; right; lra).
  rewrite Heq, Z.even_add, Ey in Ex. discriminate.
Qed.

Lemma round_inject_Z (n : Z) : Py.round (inject_Z n) = n.
Proof.
  unfold Py.round. rewrite Qfloor_Z.
  destruct (Qcompare_spec (inject_Z n - inject_Z n) (1 # 2)) as [E|E|E];
    [lra | reflexivity | lra].
Qed.

Lemma round_comp (x y : Q) : (x == y)%Q -> Py.round x = Py.round y.
Proof.
  intros H. apply Z.le_antisymm; apply round_le_mono; lra.
Qed.

Lemma round_clamp_bounds (x : Q) :
  (0 <= Py.round (Py.min 100 (Py.max 0 x)) <= 100)%Z.
Proof.
  pose proof (clamp_bounds x) as [H0 H100].
  split.
  - change 0%Z with (Py.round (inject_Z 0)) at 1.
    apply round_le_mono. exact H0.
  - rewrite <- (round_inject_Z 100) at 2.
    apply round_le_mono. exact H100.
Qed.

Lemma clamp_le_mono (x y : Q) :
  (x <= y)%Q ->
  (Py.min 100 (Py.max 0 x) <= Py.min 100 (Py.max 0 y))%Q.
Proof. intros H. apply min_le_mono, max_le_mono, H. Qed.

Lemma round_clamp_comp (x y : Q) :
  (x == y)%Q ->
  Py.round (Py.min 100 (Py.max 0 x)) = Py.round (Py.min 100 (Py.max 0 y)).
Proof.
  intros H. apply Z.le_antisymm; apply round_le_mono, clamp_le_mono; lra.
Qed.

(** ** The scorer *)

Lemma duration_hours_ok (s : SleepData.t) :
  duration_hours s = Ok (SleepData.duration s / 3600000)%Q.
Proof. reflexivity. Qed.

Lemma truediv_ok (x y : Q) : ~ (y == 0)%Q -> Py.truediv x y = Ok (x / y)%Q.
Proof.
  intros H. unfold Py.truediv.
  destruct (Qeq_bool y 0) eqn:E; [|reflexivity].
  apply Qeq_bool_iff in E. contradiction.
Qed.

Lemma efficiency_ok (s : SleepData.t) :
  exists e : Q,
    efficiency s = Ok e /\
    ((0 < SleepData.duration s)%Q ->
     e = (SleepData.qualityDuration s / SleepData.duration s)%Q) /\
    ((SleepData.duration s <= 0)%Q -> e = 0%Q).
Proof.
  unfold efficiency. cmp_cases.
  - eexists. split; [apply truediv_ok; lra|].
    split; [reflexivity | intros; lra].
  - exists 0%Q. split; [reflexivity|]. split; [intros; lra | reflexivity].
Qed.

Lemma score_unfold (s : SleepData.t) (h e : Q) :
  duration_hours s = Ok h -> efficiency s = Ok e ->
  calculate_sleep_quality_score s =
    Ok (Py.round (Py.min 100 (Py.max 0
          (total_score (duration_score h) (efficiency_score e)
                       (disturbance_score s))))).
Proof.
  intros Hh He. unfold calculate_sleep_quality_score.
  rewrite Hh, He. reflexivity.
Qed.

Lemma efficiency_score_le (e1 e2 : Q) :
  (e1 <= e2)%Q -> (efficiency_score e1 <= efficiency_score e2)%Q.
Proof. intros H. apply min_le_mono. lra. Qed.

Lemma disturbance_score_antimono (s : SleepData.t) (c1 c2 : Z) :
  (c1 <= c2)%Z ->
  (disturbance_score (SleepData.with_disturbanceCount s c2)
   <= disturbance_score (SleepData.with_disturbanceCount s c1))%Z.
Proof.
  intros H. unfold disturbance_score. cbn. rewrite !maxZ_is_Zmax. lia.
Qed.

(** The scores of the test-suite: 8 h, 5 h and 10 h of sleep at 90 %
    efficiency with 2 disturbances. *)
Example score_eight_hours :
  calculate_sleep_quality_score Sample.sample_sleep_data = Ok 92.
Proof. reflexivity. Qed.

Example score_five_hours :
  calculate_sleep_quality_score (Sample.sleep (5 * 3600000) (9 # 10) 2) =
    Ok 72.
Proof. reflexivity. Qed.

Example score_ten_hours :
  calculate_sleep_quality_score (Sample.sleep (10 * 3600000) (9 # 10) 2) =
    Ok 82.
Proof. reflexivity. Qed.

(** A total of 91.6 is rounded up, and the ties 91.5 and 90.5 go to the
    even neighbour. *)
Example score_rounds_to_nearest :
  calculate_sleep_quality_score
    (Sample.sleep Sample.eight_hours_ms (89 # 100) 2) = Ok 92.
Proof. reflexivity. Qed.

Example round_ties_to_even :
  Py.round (915 # 10) = 92 /\ Py.round (905 # 10) = 90 /\
  Py.round (5 # 2) = 2 /\ Py.round (7 # 2) = 4.
Proof. repeat split; reflexivity. Qed.

(** C1. The three sub-scores of a valid sleep record are the ones the
    specification lists: the duration sub-score is 40 on [7,9] hours, 30
    on [6,7), 20 on [5,6), 30 on (9,10] and 10 elsewhere, where
    hours = duration / 3,600,000; the efficiency sub-score is
    min(40, qualityDuration / duration * 40), and 0 when the duration is
    0; the disturbance sub-score is max(0, 20 - 2 * disturbanceCount);
    and these are the sub-scores the returned score is computed from. *)
Theorem C1_subscores_as_specified (s : SleepData.t) :
  SleepData.valid s ->
  exists h e : Q,
    duration_hours s = Ok h /\
    h = (SleepData.duration s / 3600000)%Q /\
    ((7 <= h <= 9)%Q -> duration_score h = 40) /\
    ((6 <= h < 7)%Q -> duration_score h = 30) /\
    ((5 <= h < 6)%Q -> duration_score h = 20) /\
    ((9 < h <= 10)%Q -> duration_score h = 30) /\
    ((h < 5 \/ 10 < h)%Q -> duration_score h = 10) /\
    efficiency s = Ok e /\
    ((0 < SleepData.duration s)%Q ->
     (efficiency_score e ==
      Qmin 40 (SleepData.qualityDuration s / SleepData.duration s * 40))%Q) /\
    ((SleepData.duration s == 0)%Q -> (efficiency_score e == 0)%Q) /\
    disturbance_score s = Z.max 0 (20 - 2 * SleepData.disturbanceCount s) /\
    calculate_sleep_quality_score s =
      Ok (Py.round (Py.min 100 (Py.max 0
            (inject_Z (duration_score h) + efficiency_score e
             + inject_Z (disturbance_score s))%Q))).
Proof.
  intros Hv.
  destruct (efficiency_ok s) as (e & He & Hpos & Hzero).
  exists (SleepData.duration s / 3600000)%Q, e.
  split; [apply duration_hours_ok|]. split; [reflexivity|].
  set (h := (SleepData.duration s / 3600000)%Q).
  repeat split.
  - intros [H1 H2]. unfold duration_score. cmp_cases; try reflexivity; lra.
  - intros [H1 H2]. unfold duration_score. cmp_cases; try reflexivity; lra.
  - intros [H1 H2]. unfold duration_score. cmp_cases; try reflexivity; lra.
  - intros [H1 H2]. unfold duration_score. cmp_cases; try reflexivity; lra.
  - intros [H|H]; unfold duration_score; cmp_cases; try reflexivity; lra.
  - exact He.
  - intros Hd. rewrite (Hpos Hd). apply min_is_Qmin.
  - intros Hd. rewrite Hzero by lra.
    unfold efficiency_score, Py.min. cmp_cases; lra.
  - unfold disturbance_score. rewrite maxZ_is_Zmax. f_equal. lia.
  - apply score_unfold; [apply duration_hours_ok | exact He].
Qed.

(** C2. The score of a valid sleep record is the sum of the three
    sub-scores, clamped to [0,100] and rounded to the nearest integer
    with ties to even; it is an integer between 0 and 100. *)
Theorem C2_score_is_clamped_rounded_sum (s : SleepData.t) :
  SleepData.valid s ->
  exists (h e : Q) (score : Z),
    duration_hours s = Ok h /\
    efficiency s = Ok e /\
    calculate_sleep_quality_score s = Ok score /\
    round_half_even
      (Qmin 100 (Qmax 0 (inject_Z (duration_score h) + efficiency_score e
                         + inject_Z (disturbance_score s))))
      score /\
    (0 <= score <= 100)%Z.
Proof.
  intros Hv.
  destruct (efficiency_ok s) as (e & He & _).
  eexists _, e, _.
  split; [apply duration_hours_ok|]. split; [exact He|].
  split; [apply score_unfold; [apply duration_hours_ok | exact He]|].
  split; [|apply round_clamp_bounds].
  unfold total_score.
  set (t := (_ + _ + _)%Q).
  pose proof (round_is_half_even (Py.min 100 (Py.max 0 t))) as [Hb He'].
  assert (Hc : (Py.min 100 (Py.max 0 t) == Qmin 100 (Qmax 0 t))%Q).
  { rewrite min_is_Qmin. rewrite max_is_Qmax. reflexivity. }
  unfold round_half_even. rewrite <- Hc. split; [exact Hb | exact He'].
Qed.

(** Closed order facts on numerals. *)
Ltac concrete :=
  repeat split; vm_compute; first [reflexivity | discriminate | exact I].

Lemma sample_sleep_valid : SleepData.valid Sample.sample_sleep_data.
Proof. concrete. Defined.

Lemma C1_subscores_witness :
  SleepData.valid Sample.sample_sleep_data /\
  exists h e : Q,
    duration_hours Sample.sample_sleep_data = Ok h /\
    duration_score h = 40 /\
    efficiency Sample.sample_sleep_data = Ok e.
Proof.
  split; [exact sample_sleep_valid|].
  destruct (C1_subscores_as_specified _ sample_sleep_valid)
    as (h & e & Hh & Heq & H40 & _ & _ & _ & _ & He & _).
  exists h, e. split; [exact Hh|]. split; [|exact He].
  apply H40. rewrite Heq. concrete.
Defined.

Lemma C2_score_witness :
  SleepData.valid Sample.sample_sleep_data /\
  exists score : Z,
    calculate_sleep_quality_score Sample.sample_sleep_data = Ok score /\
    (0 <= score <= 100)%Z.
Proof.
  split; [exact sample_sleep_valid|].
  destruct (C2_score_is_clamped_rounded_sum _ sample_sleep_valid)
    as (h & e & score & _ & _ & Hs & _ & Hb).
  exists score. split; [exact Hs | exact Hb].
Defined.

(** C6. With duration and quality duration fixed, a larger disturbance
    count never gives a higher score; from 10 disturbances on the score
    is the clamped, rounded sum of the duration and efficiency
    sub-scores. *)
Theorem C6_score_antitone_in_disturbances
    (s : SleepData.t) (c1 c2 : Z) :
  SleepData.valid (SleepData.with_disturbanceCount s c1) ->
  SleepData.valid (SleepData.with_disturbanceCount s c2) ->
  (c1 <= c2)%Z ->
  exists (h e : Q) (z1 z2 : Z),
    duration_hours s = Ok h /\
    efficiency s = Ok e /\
    calculate_sleep_quality_score (SleepData.with_disturbanceCount s c1)
      = Ok z1 /\
    calculate_sleep_quality_score (SleepData.with_disturbanceCount s c2)
      = Ok z2 /\
    (z2 <= z1)%Z /\
    ((10 <= c2)%Z ->
     z2 = Py.round (Py.min 100 (Py.max 0
            (inject_Z (duration_score h) + efficiency_score e)%Q))).
Proof.
  intros _ _ Hc.
  destruct (efficiency_ok s) as (e & He & _).
  pose proof (duration_hours_ok s) as Hh.
  eexists _, e, _, _.
  split; [exact Hh|]. split; [exact He|].
  split; [apply score_unfold; [exact Hh | exact He]|].
  split; [apply score_unfold; [exact Hh | exact He]|].
  split.
  - apply round_le_mono, clamp_le_mono. unfold total_score.
    pose proof (disturbance_score_antimono s c1 c2 Hc) as Hd.
    rewrite Zle_Qle in Hd. lra.
  - intros H10. apply round_clamp_comp. unfold total_score.
    unfold disturbance_score. cbn [SleepData.disturbanceCount
      SleepData.with_disturbanceCount].
    rewrite maxZ_is_Zmax. rewrite Z.max_l by lia.
    change (inject_Z 0) with 0%Q. lra.
Qed.

Lemma C6_antitone_witness :
  exists z1 z2 : Z,
    calculate_sleep_quality_score
      (SleepData.with_disturbanceCount Sample.sample_sleep_data 2) = Ok z1 /\
    calculate_sleep_quality_score
      (SleepData.with_disturbanceCount Sample.sample_sleep_data 12) = Ok z2 /\
    (z2 <= z1)%Z.
Proof.
  assert (H1 : SleepData.valid
                 (SleepData.with_disturbanceCount Sample.sample_sleep_data 2))
    by concrete.
  assert (H2 : SleepData.valid
                 (SleepData.with_disturbanceCount Sample.sample_sleep_data 12))
    by concrete.
  assert (H3 : (2 <= 12)%Z) by lia.
  destruct (C6_score_antitone_in_disturbances _ 2 12 H1 H2 H3)
    as (h & e & z1 & z2 & _ & _ & Hz1 & Hz2 & Hle & _).
  exists z1, z2. split; [exact Hz1|]. split; [exact Hz2 | exact Hle].
Defined.

(** ** The summarizer *)

Lemma fold_left_Qplus (xs : list Q) (a : Q) :
  (fold_left Qplus xs a == a + fold_right Qplus 0 xs)%Q.
Proof.
  revert a. induction xs as [|x xs IH]; intros a; simpl.
  - lra.
  - rewrite IH. lra.
Qed.

Lemma sum_fold_right (xs : list Q) : (Py.sum xs == fold_right Qplus 0 xs)%Q.
Proof. unfold Py.sum. rewrite fold_left_Qplus. lra. Qed.

Lemma fold_right_pos (xs : list Q) :
  xs <> [] -> Forall (fun x => 0 < x)%Q xs -> (0 < fold_right Qplus 0 xs)%Q.
Proof.
  intros Hne Hall. induction Hall as [|x xs Hx Hxs IH]; [congruence|].
  simpl. destruct xs as [|y ys].
  - simpl. lra.
  - assert (0 < fold_right Qplus 0 (y :: ys))%Q by (apply IH; discriminate).
    lra.
Qed.

Lemma fold_right_Qeq (xs ys : list Q) :
  Forall2 Qeq xs ys -> (fold_right Qplus 0 xs == fold_right Qplus 0 ys)%Q.
Proof.
  induction 1 as [|x y xs ys Hxy _ IH]; simpl; [reflexivity|].
  rewrite Hxy, IH. reflexivity.
Qed.

Lemma len_nonzero {A : Type} (x : A) (xs : list A) :
  ~ (inject_Z (Py.len (x :: xs)) == 0)%Q.
Proof.
  unfold Py.len, Qeq. cbn [Qnum Qden inject_Z length]. lia.
Qed.

Lemma len_pos {A : Type} (x : A) (xs : list A) :
  (0 < inject_Z (Py.len (x :: xs)))%Q.
Proof.
  unfold Py.len, Qlt. cbn [Qnum Qden inject_Z length]. lia.
Qed.

Lemma py_mean_is_mean (xs : list Q) : (py_mean xs == mean xs)%Q.
Proof.
  unfold py_mean, mean, Py.len. rewrite sum_fold_right. reflexivity.
Qed.

Lemma py_mean_pos (xs : list Q) :
  xs <> [] -> Forall (fun x => 0 < x)%Q xs -> (0 < py_mean xs)%Q.
Proof.
  intros Hne Hall. unfold py_mean.
  destruct xs as [|x xs]; [congruence|].
  apply Qlt_shift_div_l; [apply len_pos|].
  rewrite sum_fold_right. rewrite Qmult_0_l.
  apply fold_right_pos; assumption.
Qed.

Lemma mean_Qeq (xs ys : list Q) :
  Forall2 Qeq xs ys -> (mean xs == mean ys)%Q.
Proof.
  intros H. unfold mean.
  rewrite (fold_right_Qeq _ _ H).
  rewrite (Forall2_length _ _ _ H). reflexivity.
Qed.

Lemma truthy_hrv_values_valid (ps : list PhysiologicalData.t) :
  Forall PhysiologicalData.valid ps ->
  truthy_hrv_values ps = omap PhysiologicalData.heartRateVariability ps.
Proof.
  induction 1 as [|p ps Hp _ IH]; [reflexivity|].
  unfold truthy_hrv_values in *. cbn [omap list_omap]. rewrite IH.
  destruct Hp as (_ & Hh & _).
  destruct (PhysiologicalData.heartRateVariability p) as [x|]; [|reflexivity].
  cbn [truthy_float].
  destruct (Qeq_bool x 0) eqn:E; [|reflexivity].
  apply Qeq_bool_iff in E. lra.
Qed.

Lemma average_hrv_of_spec (ph : option (list PhysiologicalData.t)) :
  average_hrv_of ph = Ok (opt_mean (truthy_hrv_values (default [] ph))).
Proof.
  destruct ph as [[|p ps]|]; try reflexivity.
  unfold average_hrv_of. cbn [default from_option id].
  fold (truthy_hrv_values (p :: ps)).
  destruct (truthy_hrv_values (p :: ps)) as [|v vs]; [reflexivity|].
  rewrite truediv_ok by apply len_nonzero. reflexivity.
Qed.

Lemma respiratory_rate_of_spec (ph : option (list PhysiologicalData.t)) :
  respiratory_rate_of ph =
    Ok (opt_mean (map PhysiologicalData.respiratoryRate (default [] ph))).
Proof.
  destruct ph as [[|p ps]|]; reflexivity.
Qed.

Lemma efficiency_total (s : SleepData.t) : efficiency s = Ok (efficiency_of s).
Proof.
  unfold efficiency, efficiency_of. cmp_cases; [|reflexivity].
  apply truediv_ok. lra.
Qed.

Lemma score_total (s : SleepData.t) :
  calculate_sleep_quality_score s = Ok (sleep_score_of s).
Proof.
  apply score_unfold; [apply duration_hours_ok | apply efficiency_total].
Qed.

Lemma sleep_score_bounds (s : SleepData.t) : (0 <= sleep_score_of s <= 100)%Z.
Proof. apply round_clamp_bounds. Qed.

Lemma compute_is_new (strptime : string -> string -> bool)
    (t : Q) (u d : string) sl rc cy ph :
  compute_daily_summary strptime t u d sl rc cy ph =
    DailySummary.new strptime (summary_fields t u d sl rc cy ph).
Proof.
  unfold compute_daily_summary.
  rewrite average_hrv_of_spec, respiratory_rate_of_spec.
  cbn [rbind]. unfold summary_fields.
  destruct sl as [s|]; cbn [rbind].
  - rewrite score_total. cbn [rbind].
    change (Py.truediv (SleepData.duration s) (inject_Z (1000 * 60 * 60)))
      with (Ok (SleepData.duration s / 3600000)%Q).
    cbn [rbind fst snd option_map].
    destruct rc, cy; reflexivity.
  - cbn [fst snd option_map]. destruct rc, cy; reflexivity.
Qed.

Lemma new_inv (strptime : string -> string -> bool) (s0 s : DailySummary.t) :
  DailySummary.new strptime s0 = Ok s ->
  s = s0 /\ strptime (DailySummary.date s0) "%Y-%m-%d" = true /\
  DailySummary.fields_ok s0 = true.
Proof.
  unfold DailySummary.new, DailySummary.validate_date_format.
  destruct (strptime _ _); [|discriminate].
  destruct (DailySummary.fields_ok s0); [|discriminate].
  intros [= <-]. auto.
Qed.

Lemma compute_ok_inv (strptime : string -> string -> bool)
    (t : Q) (u d : string) sl rc cy ph (s : DailySummary.t) :
  compute_daily_summary strptime t u d sl rc cy ph = Ok s ->
  s = summary_fields t u d sl rc cy ph /\ strptime d "%Y-%m-%d" = true.
Proof.
  rewrite compute_is_new. intros H.
  apply new_inv in H as (-> & Hd & _). auto.
Qed.

Lemma opt_mean_None (xs : list Q) : opt_mean xs = None <-> xs = [].
Proof. destruct xs; simpl; split; congruence. Qed.

Lemma omap_nil_iff {A B : Type} (f : A -> option B) (l : list A) :
  omap f l = [] <-> forall x, In x l -> f x = None.
Proof.
  induction l as [|a l IH]; cbn [omap list_omap].
  - split; [intros _ x [] | reflexivity].
  - destruct (f a) eqn:E.
    + split; [discriminate|]. intros H.
      specialize (H a (or_introl eq_refl)). congruence.
    + rewrite IH. split.
      * intros H x [<-|Hx]; [exact E | apply H, Hx].
      * intros H x Hx. apply H. right. exact Hx.
Qed.

Lemma opt_ok_ge_le (lo hi : Q) (o : option Q) :
  DailySummary.opt_ok (DailySummary.ge_le lo hi) o = true <->
  from_option (fun x => lo <= x <= hi)%Q True o.
Proof.
  destruct o as [x|]; cbn [DailySummary.opt_ok from_option]; [|tauto].
  unfold DailySummary.ge_le. rewrite andb_true_iff, !leb_le. tauto.
Qed.

Lemma opt_ok_ge (lo : Q) (o : option Q) :
  DailySummary.opt_ok (DailySummary.ge lo) o = true <->
  from_option (fun x => lo <= x)%Q True o.
Proof.
  destruct o as [x|]; cbn [DailySummary.opt_ok from_option]; [|tauto].
  apply leb_le.
Qed.

Lemma opt_ok_gt (lo : Q) (o : option Q) :
  DailySummary.opt_ok (DailySummary.gt lo) o = true <->
  from_option (fun x => lo < x)%Q True o.
Proof.
  destruct o as [x|]; cbn [DailySummary.opt_ok from_option]; [|tauto].
  apply ltb_lt.
Qed.

Lemma fields_ok_valid (s : DailySummary.t) :
  DailySummary.fields_ok s = true <-> valid_summary s.
Proof.
  unfold DailySummary.fields_ok, valid_summary.
  rewrite !andb_true_iff, !opt_ok_ge_le, opt_ok_ge, !opt_ok_gt. tauto.
Qed.

Lemma opt_mean_pos (xs : list Q) :
  Forall (fun x => 0 < x)%Q xs ->
  from_option (fun x => 0 < x)%Q True (opt_mean xs).
Proof.
  intros H. destruct xs as [|x xs]; [exact I|].
  cbn. apply py_mean_pos; [discriminate | exact H].
Qed.

Lemma hrv_values_pos (ps : list PhysiologicalData.t) :
  Forall PhysiologicalData.valid ps ->
  Forall (fun x => 0 < x)%Q (omap PhysiologicalData.heartRateVariability ps).
Proof.
  induction 1 as [|p ps Hp _ IH]; cbn [omap list_omap]; [constructor|].
  destruct Hp as (_ & Hh & _).
  destruct (PhysiologicalData.heartRateVariability p); [|exact IH].
  constructor; assumption.
Qed.

Lemma resp_values_pos (ps : list PhysiologicalData.t) :
  Forall PhysiologicalData.valid ps ->
  Forall (fun x => 0 < x)%Q (map PhysiologicalData.respiratoryRate ps).
Proof.
  induction 1 as [|p ps Hp _ IH]; cbn [map]; constructor; [|exact IH].
  destruct Hp as (_ & _ & Hr & _). exact Hr.
Qed.

Lemma valid_default (ph : option (list PhysiologicalData.t)) :
  from_option (Forall PhysiologicalData.valid) True ph ->
  Forall PhysiologicalData.valid (default [] ph).
Proof. destruct ph; cbn; [auto | constructor]. Qed.

Lemma summary_fields_valid (t : Q) (u d : string) sl rc cy ph :
  valid_inputs sl rc cy ph ->
  valid_summary (summary_fields t u d sl rc cy ph).
Proof.
  intros (Hsl & Hrc & Hcy & Hph).
  apply valid_default in Hph.
  unfold valid_summary, summary_fields.
  cbn [DailySummary.recoveryScore DailySummary.sleepQualityScore
       DailySummary.totalStrain DailySummary.sleepDuration
       DailySummary.averageHRV DailySummary.restingHeartRate
       DailySummary.respiratoryRate].
  refine (conj _ (conj _ (conj _ (conj _ (conj _ (conj _ _)))))).
  - destruct rc as [r|]; [|exact I]. apply Hrc.
  - destruct sl as [s|]; [|exact I]. cbn [option_map from_option].
    pose proof (sleep_score_bounds s) as [H0 H100].
    rewrite Zle_Qle in H0, H100. split; assumption.
  - destruct cy as [c|]; [|exact I]. apply Hcy.
  - destruct sl as [s|]; [|exact I]. cbn [option_map from_option].
    destruct Hsl as (Hd & _). apply Qle_shift_div_l; lra.
  - rewrite truthy_hrv_values_valid by exact Hph.
    apply opt_mean_pos, hrv_values_pos, Hph.
  - destruct rc as [r|]; [|exact I]. apply Hrc.
  - apply opt_mean_pos, resp_values_pos, Hph.
Qed.

(** ** Claims about the summarizer *)

Lemma is_Some_option_map {A B : Type} (f : A -> B) (o : option A) :
  is_Some (option_map f o) <-> is_Some o.
Proof.
  destruct o; cbn; split; intros [x H]; try discriminate; eauto.
Qed.

Lemma is_Some_opt_mean (xs : list Q) : is_Some (opt_mean xs) <-> xs <> [].
Proof.
  destruct xs; cbn; split.
  - intros [x H]. discriminate.
  - congruence.
  - discriminate.
  - eauto.
Qed.

Lemma supplied_nonempty_default {A : Type} (o : option (list A)) :
  supplied_nonempty o <-> default [] o <> [].
Proof.
  unfold supplied_nonempty. destruct o as [l|]; cbn.
  - split; [intros (l' & [= <-] & H); exact H | eauto].
  - split; [intros (l' & [=] & _) | congruence].
Qed.

(** C3 as stated fails: for a supplied, non-empty list of valid samples
    none of which has an HRV value, the summary has no averageHRV. *)
Lemma C3_presence_counterexample :
  Forall PhysiologicalData.valid [Sample.physio 0 None] /\
  exists s : DailySummary.t,
    compute_daily_summary Sample.strptime 1700000000 "test-user-123"
      "2024-02-06" None None None (Some [Sample.physio 0 None]) = Ok s /\
    ~ presence_as_stated None None None (Some [Sample.physio 0 None]) s.
Proof.
  split; [repeat constructor; concrete|].
  eexists. split; [vm_compute; reflexivity|].
  intros (_ & _ & _ & _ & _ & [_ Hhrv] & _).
  destruct Hhrv as [x Hx]; [|discriminate].
  eexists. split; [reflexivity | discriminate].
Qed.

(** C3 (amended). In the summary a call returns, recoveryScore and
    restingHeartRate are present iff recovery was supplied, totalStrain
    iff a cycle was supplied, sleepQualityScore and sleepDuration iff
    sleep was supplied, respiratoryRate iff the physiological list was
    supplied and non-empty, and averageHRV iff some supplied sample has
    an HRV value. *)
Theorem C3_presence_amended
    (strptime : string -> string -> bool) (t : Q) (u d : string)
    (sl : option SleepData.t) (rc : option RecoveryData.t)
    (cy : option CycleData.t) (ph : option (list PhysiologicalData.t))
    (s : DailySummary.t) :
  from_option (Forall PhysiologicalData.valid) True ph ->
  compute_daily_summary strptime t u d sl rc cy ph = Ok s ->
  (is_Some (DailySummary.recoveryScore s) <-> is_Some rc) /\
  (is_Some (DailySummary.restingHeartRate s) <-> is_Some rc) /\
  (is_Some (DailySummary.totalStrain s) <-> is_Some cy) /\
  (is_Some (DailySummary.sleepQualityScore s) <-> is_Some sl) /\
  (is_Some (DailySummary.sleepDuration s) <-> is_Some sl) /\
  (is_Some (DailySummary.averageHRV s) <->
   exists ps p, ph = Some ps /\ In p ps /\
                is_Some (PhysiologicalData.heartRateVariability p)) /\
  (is_Some (DailySummary.respiratoryRate s) <-> supplied_nonempty ph).
Proof.
  intros Hv H. apply compute_ok_inv in H as [-> _].
  apply valid_default in Hv.
  unfold summary_fields.
  cbn [DailySummary.recoveryScore DailySummary.sleepQualityScore
       DailySummary.totalStrain DailySummary.sleepDuration
       DailySummary.averageHRV DailySummary.restingHeartRate
       DailySummary.respiratoryRate].
  rewrite !is_Some_option_map, !is_Some_opt_mean.
  rewrite truthy_hrv_values_valid by exact Hv.
  repeat (split; [reflexivity|]). split.
  - rewrite omap_nil_iff. split.
    + intros Hn. destruct ph as [ps|]; cbn in *.
      * destruct (decide (Exists
            (fun p => is_Some (PhysiologicalData.heartRateVariability p)) ps))
          as [He|He].
        { apply List.Exists_exists in He as (p & Hin & Hp). eauto. }
        { exfalso. apply Hn. intros p Hin.
          destruct (PhysiologicalData.heartRateVariability p) eqn:E;
            [|reflexivity].
          exfalso. apply He. apply List.Exists_exists. exists p.
          rewrite E. eauto. }
      * exfalso. apply Hn. intros x [].
    + intros (ps & p & -> & Hin & [x Hx]) Hn. cbn in Hn.
      rewrite (Hn p Hin) in Hx. discriminate.
  - rewrite supplied_nonempty_default.
    destruct (default [] ph); cbn; split; congruence.
Qed.

Lemma sample_physio_valid :
  Forall PhysiologicalData.valid Sample.sample_physiological_data.
Proof.
  unfold Sample.sample_physiological_data. cbn [map].
  repeat (apply List.Forall_cons; [concrete|]). apply List.Forall_nil.
Defined.

Lemma sample_inputs_valid :
  valid_inputs (Some Sample.sample_sleep_data)
    (Some Sample.sample_recovery_data) (Some Sample.sample_cycle_data)
    (Some Sample.sample_physiological_data).
Proof.
  split; [exact sample_sleep_valid|].
  split; [concrete|]. split; [concrete|]. exact sample_physio_valid.
Defined.

Lemma sample_summary_ok :
  exists s : DailySummary.t,
    compute_daily_summary Sample.strptime 1700000000 "test-user-123"
      "2024-02-06" (Some Sample.sample_sleep_data)
      (Some Sample.sample_recovery_data) (Some Sample.sample_cycle_data)
      (Some Sample.sample_physiological_data) = Ok s.
Proof. eexists. vm_compute. reflexivity. Defined.

Lemma C3_presence_witness :
  exists s : DailySummary.t,
    compute_daily_summary Sample.strptime 1700000000 "test-user-123"
      "2024-02-06" (Some Sample.sample_sleep_data)
      (Some Sample.sample_recovery_data) (Some Sample.sample_cycle_data)
      (Some Sample.sample_physiological_data) = Ok s /\
    is_Some (DailySummary.averageHRV s).
Proof.
  destruct sample_summary_ok as [s Hs].
  exists s. split; [exact Hs|].
  destruct (C3_presence_amended _ _ _ _ _ _ _
              (Some Sample.sample_physiological_data) _
              sample_physio_valid Hs)
    as (_ & _ & _ & _ & _ & [_ Hhrv] & _).
  apply Hhrv. eexists _, (Sample.physio 0 (Some 65%Q)).
  split; [reflexivity|]. split; [left; reflexivity | eexists; reflexivity].
Defined.

Lemma mean_sample_values : (mean [65; 67; 69; 71; 73] == 69)%Q.
Proof. reflexivity. Qed.

(** C4. The average HRV of a summary is the arithmetic mean of the HRV
    values of exactly the supplied samples that have one; it is absent
    when the list is absent, empty, or holds no sample with an HRV value;
    for the values 65, 67, 69, 71, 73 it is 69. *)
Theorem C4_average_hrv_is_mean_of_present
    (strptime : string -> string -> bool) (t : Q) (u d : string)
    (sl : option SleepData.t) (rc : option RecoveryData.t)
    (cy : option CycleData.t) (ph : option (list PhysiologicalData.t))
    (s : DailySummary.t) :
  from_option (Forall PhysiologicalData.valid) True ph ->
  compute_daily_summary strptime t u d sl rc cy ph = Ok s ->
  (hrv_values_of ph <> [] ->
   exists a : Q,
     DailySummary.averageHRV s = Some a /\ (a == mean (hrv_values_of ph))%Q) /\
  (ph = None \/ ph = Some [] \/
   (forall p, In p (default [] ph) ->
              PhysiologicalData.heartRateVariability p = None) ->
   DailySummary.averageHRV s = None) /\
  (Forall2 Qeq (hrv_values_of ph) [65; 67; 69; 71; 73]%Q ->
   exists a : Q, DailySummary.averageHRV s = Some a /\ (a == 69)%Q).
Proof.
  intros Hv H. apply compute_ok_inv in H as [-> _].
  apply valid_default in Hv.
  unfold summary_fields. cbn [DailySummary.averageHRV].
  rewrite truthy_hrv_values_valid by exact Hv.
  fold (hrv_values_of ph).
  assert (Hmean : hrv_values_of ph <> [] ->
            exists a : Q, opt_mean (hrv_values_of ph) = Some a /\
                          (a == mean (hrv_values_of ph))%Q).
  { intros Hne. destruct (hrv_values_of ph) as [|v vs] eqn:E; [congruence|].
    eexists. split; [reflexivity|]. apply py_mean_is_mean. }
  split; [exact Hmean|]. split.
  - intros Habs. apply opt_mean_None. unfold hrv_values_of.
    apply omap_nil_iff.
    destruct Habs as [-> | [-> | Hnone]]; [intros p [] | intros p [] | exact Hnone].
  - intros Hvals.
    destruct Hmean as (a & Ha & Hm).
    { intros E. rewrite E in Hvals. inversion Hvals. }
    exists a. split; [exact Ha|].
    rewrite Hm, (mean_Qeq _ _ Hvals). apply mean_sample_values.
Qed.

Lemma C4_average_hrv_witness :
  exists s : DailySummary.t,
    compute_daily_summary Sample.strptime 1700000000 "test-user-123"
      "2024-02-06" (Some Sample.sample_sleep_data)
      (Some Sample.sample_recovery_data) (Some Sample.sample_cycle_data)
      (Some Sample.sample_physiological_data) = Ok s /\
    exists a : Q, DailySummary.averageHRV s = Some a /\ (a == 69)%Q.
Proof.
  destruct sample_summary_ok as [s Hs].
  exists s. split; [exact Hs|].
  destruct (C4_average_hrv_is_mean_of_present _ _ _ _ _ _ _
              (Some Sample.sample_physiological_data) _
              sample_physio_valid Hs) as (_ & _ & H69).
  apply H69. vm_compute.
  repeat (apply List.Forall2_cons; [reflexivity|]). apply List.Forall2_nil.
Defined.

(** No optional input: every optional field is absent and every flag is
    false; the record id is the date prefixed with [summary#]. *)
Example summary_of_nothing :
  compute_daily_summary Sample.strptime 1700000000 "test-user-123"
    "2024-02-06" None None None None =
  Ok (DailySummary.mk "test-user-123" "summary#2024-02-06" "2024-02-06"
        None None None None None None None
        (DataCompleteness.mk false false false false false)
        1700000000 1702592000).
Proof. reflexivity. Qed.

(** C5. The completeness flags of a returned summary: hasSleep,
    hasRecovery and hasCycle hold iff the record was supplied,
    hasPhysiological holds iff the list was supplied and non-empty (an
    empty list gives false), and hasWorkout is false. *)
Theorem C5_completeness_flags
    (strptime : string -> string -> bool) (t : Q) (u d : string)
    (sl : option SleepData.t) (rc : option RecoveryData.t)
    (cy : option CycleData.t) (ph : option (list PhysiologicalData.t))
    (s : DailySummary.t) :
  compute_daily_summary strptime t u d sl rc cy ph = Ok s ->
  let c := DailySummary.dataCompleteness s in
  (DataCompleteness.hasSleep c = true <-> is_Some sl) /\
  (DataCompleteness.hasRecovery c = true <-> is_Some rc) /\
  (DataCompleteness.hasCycle c = true <-> is_Some cy) /\
  (DataCompleteness.hasPhysiological c = true <-> supplied_nonempty ph) /\
  (ph = Some [] -> DataCompleteness.hasPhysiological c = false) /\
  DataCompleteness.hasWorkout c = false.
Proof.
  intros H. apply compute_ok_inv in H as [-> _].
  assert (Hn : forall (A : Type) (o : option A),
             is_not_None o = true <-> is_Some o).
  { intros A [a|]; cbn; split; intros Hx; eauto; try discriminate.
    destruct Hx as [x Hx]. discriminate. }
  cbn. rewrite !Hn.
  repeat (split; [reflexivity|]).
  split; [|split; [intros ->; reflexivity | reflexivity]].
  unfold supplied_nonempty. destruct ph as [[|p ps]|].
  - cbn. split; [discriminate|]. intros (l & [= <-] & Hl). congruence.
  - split; [|reflexivity]. intros _. eexists. split; [reflexivity|discriminate].
  - split; [discriminate|]. intros (l & [=] & _).
Qed.

Lemma C5_completeness_witness :
  exists s : DailySummary.t,
    compute_daily_summary Sample.strptime 1700000000 "test-user-123"
      "2024-02-06" (Some Sample.sample_sleep_data)
      (Some Sample.sample_recovery_data) (Some Sample.sample_cycle_data)
      (Some Sample.sample_physiological_data) = Ok s /\
    DataCompleteness.hasWorkout (DailySummary.dataCompleteness s) = false.
Proof.
  destruct sample_summary_ok as [s Hs].
  exists s. split; [exact Hs|].
  apply (C5_completeness_flags _ _ _ _ _ _ _ _ _ Hs).
Defined.

(** Whatever the date parser is: for valid optional inputs,
    [compute_daily_summary] raises iff the parser rejects the date, the
    error is then the validation error of the date format, and for an
    accepted date the summary returned satisfies its declared field
    constraints. *)
Lemma raises_iff_validator_rejects
    (strptime : string -> string -> bool) (t : Q) (u d : string)
    (sl : option SleepData.t) (rc : option RecoveryData.t)
    (cy : option CycleData.t) (ph : option (list PhysiologicalData.t)) :
  valid_inputs sl rc cy ph ->
  ((exists e, compute_daily_summary strptime t u d sl rc cy ph = Raise e)
   <-> strptime d "%Y-%m-%d" = false) /\
  (strptime d "%Y-%m-%d" = false ->
   compute_daily_summary strptime t u d sl rc cy ph =
     Raise (ValidationError "Date must be in YYYY-MM-DD format")) /\
  (strptime d "%Y-%m-%d" = true ->
   exists s : DailySummary.t,
     compute_daily_summary strptime t u d sl rc cy ph = Ok s /\
     valid_summary s).
Proof.
  intros Hv. rewrite compute_is_new.
  pose proof (summary_fields_valid t u d sl rc cy ph Hv) as Hs.
  pose proof (proj2 (fields_ok_valid _) Hs) as Hok.
  unfold DailySummary.new, DailySummary.validate_date_format.
  change (DailySummary.date (summary_fields t u d sl rc cy ph)) with d.
  rewrite Hok.
  destruct (strptime d "%Y-%m-%d").
  - split; [|split].
    + split; [intros [e He]; discriminate | discriminate].
    + discriminate.
    + intros _. eexists. split; [reflexivity | exact Hs].
  - split; [|split].
    + split; [reflexivity | intros _; eexists; reflexivity].
    + reflexivity.
    + discriminate.
Qed.

Lemma raises_iff_validator_rejects_sample :
  (exists s : DailySummary.t,
     compute_daily_summary Sample.strptime 1700000000 "test-user-123"
       "2024-02-06" (Some Sample.sample_sleep_data)
       (Some Sample.sample_recovery_data) (Some Sample.sample_cycle_data)
       (Some Sample.sample_physiological_data) = Ok s /\
     valid_summary s) /\
  compute_daily_summary Sample.strptime 1700000000 "test-user-123"
    "06/02/2024" None None None None =
    Raise (ValidationError "Date must be in YYYY-MM-DD format").
Proof.
  split.
  - apply (raises_iff_validator_rejects Sample.strptime 1700000000 "test-user-123"
             "2024-02-06" _ _ _ _ sample_inputs_valid).
    reflexivity.
  - assert (Hv : valid_inputs None None None None) by (repeat split).
    apply (raises_iff_validator_rejects Sample.strptime 1700000000 "test-user-123"
             "06/02/2024" _ _ _ _ Hv).
    reflexivity.
Defined.

(** *** The library's parser against the format YYYY-MM-DD *)

Lemma digit_range (c : ascii) (a : Z) :
  Strptime.digit c = Some a -> 0 <= a <= 9.
Proof.
  unfold Strptime.digit.
  destruct (_ && _)%bool eqn:E; [|discriminate].
  intros [= <-]. apply andb_true_iff in E as [E1 E2].
  apply Z.leb_le in E1, E2. lia.
Qed.

Ltac between_lia :=
  unfold Strptime.between in *;
  repeat match goal with
         | H : (_ && _)%bool = true |- _ => apply andb_true_iff in H as [? ?]
         | H : (_ && _)%bool = false |- _ => apply andb_false_iff in H as [?|?]
         | H : (_ <=? _)%Z = true |- _ => apply Z.leb_le in H
         | H : (_ <=? _)%Z = false |- _ => apply Z.leb_gt in H
         end;
  repeat rewrite ?andb_true_iff, ?Z.leb_le;
  try lia.

Lemma month_alternative {A : Type} (m1 m2 : ascii) (r : list ascii)
    (e f : Z) (k : Z -> list ascii -> option A) (x : A) :
  Strptime.digit m1 = Some e -> Strptime.digit m2 = Some f ->
  1 <= 10 * e + f <= 12 ->
  k (10 * e + f) r = Some x ->
  Strptime.first_match Strptime.re_m k (m1 :: m2 :: r) = Some x.
Proof.
  intros H1 H2 Hm Hk.
  pose proof (digit_range _ _ H1). pose proof (digit_range _ _ H2).
  unfold Strptime.re_m. cbn [Strptime.first_match].
  unfold Strptime.two at 1. rewrite H1, H2.
  destruct (Strptime.between 1 1 e && Strptime.between 0 2 f)%bool eqn:E1.
  { rewrite Hk. reflexivity. }
  unfold Strptime.two at 1. rewrite H1, H2.
  assert (E2 : (Strptime.between 0 0 e && Strptime.between 1 9 f)%bool = true)
    by between_lia.
  rewrite E2, Hk. reflexivity.
Qed.

Lemma day_alternative {A : Type} (d1 d2 : ascii) (r : list ascii)
    (g h : Z) (k : Z -> list ascii -> option A) (x : A) :
  Strptime.digit d1 = Some g -> Strptime.digit d2 = Some h ->
  1 <= 10 * g + h <= 31 ->
  k (10 * g + h) r = Some x ->
  Strptime.first_match Strptime.re_d k (d1 :: d2 :: r) = Some x.
Proof.
  intros H1 H2 Hd Hk.
  pose proof (digit_range _ _ H1). pose proof (digit_range _ _ H2).
  unfold Strptime.re_d. cbn [Strptime.first_match].
  unfold Strptime.two at 1. rewrite H1, H2.
  destruct (Strptime.between 3 3 g && Strptime.between 0 1 h)%bool eqn:E1.
  { rewrite Hk. reflexivity. }
  unfold Strptime.two at 1. rewrite H1, H2.
  destruct (Strptime.between 1 2 g && Strptime.between 0 9 h)%bool eqn:E2.
  { rewrite Hk. reflexivity. }
  unfold Strptime.two at 1. rewrite H1, H2.
  assert (E3 : (Strptime.between 0 0 g && Strptime.between 1 9 h)%bool = true)
    by between_lia.
  rewrite E3, Hk. reflexivity.
Qed.

Lemma days_in_month_le (y m : Z) : Strptime.days_in_month y m <= 31.
Proof.
  unfold Strptime.days_in_month.
  repeat match goal with |- context [if ?b then _ else _] => destruct b end;
    lia.
Qed.

Lemma dash_cons (r : list ascii) :
  Strptime.dash ("-"%char :: r) = Some r.
Proof. reflexivity. Qed.

Lemma iso_date_accepted (v : string) :
  Strptime.iso_date v = true -> Strptime.strptime v "%Y-%m-%d" = true.
Proof.
  unfold Strptime.iso_date, Strptime.strptime, Strptime.parse_Ymd.
  destruct (list_ascii_of_string v)
    as [|y1 [|y2 [|y3 [|y4 [|s1 [|m1 [|m2 [|s2 [|d1 [|d2 [|c l]]]]]]]]]]];
    try discriminate.
  destruct (Strptime.digit y1) as [a|] eqn:Ea; [|discriminate].
  destruct (Strptime.digit y2) as [b|] eqn:Eb; [|discriminate].
  destruct (Strptime.digit y3) as [c|] eqn:Ec; [|discriminate].
  destruct (Strptime.digit y4) as [d|] eqn:Ed; [|discriminate].
  destruct (Strptime.digit m1) as [e|] eqn:Ee; [|discriminate].
  destruct (Strptime.digit m2) as [f|] eqn:Ef; [|discriminate].
  destruct (Strptime.digit d1) as [g|] eqn:Eg; [|discriminate].
  destruct (Strptime.digit d2) as [h|] eqn:Eh; [|discriminate].
  intros H. apply andb_true_iff in H as [H Hdate].
  apply andb_true_iff in H as [Hs1 Hs2].
  apply Ascii.eqb_eq in Hs1, Hs2. subst s1 s2.
  assert (Hdate' := Hdate). unfold Strptime.date_ok in Hdate'.
  apply andb_true_iff in Hdate' as [Hym Hday].
  apply andb_true_iff in Hym as [_ Hmon].
  pose proof (days_in_month_le (1000 * a + 100 * b + 10 * c + d) (10 * e + f)).
  assert (Hm : 1 <= 10 * e + f <= 12) by between_lia.
  assert (Hd : 1 <= 10 * g + h <= 31) by between_lia.
  change (String.eqb "%Y-%m-%d" "%Y-%m-%d") with true. cbn [andb].
  unfold Strptime.regex_match, Strptime.re_Y.
  rewrite Ea, Eb, Ec, Ed, dash_cons.
  erewrite (month_alternative m1 m2 _ e f); [|exact Ee|exact Ef|exact Hm|].
  2:{ rewrite dash_cons.
      apply (day_alternative d1 d2 [] g h); [exact Eg|exact Eh|exact Hd|].
      reflexivity. }
  exact Hdate.
Qed.

(** C7. With the library's date parser and valid optional inputs: a date
    in the format YYYY-MM-DD yields a summary whose declared field
    constraints hold, and a date the parser rejects yields the
    validation error; but the unpadded ["2024-2-6"] and the
    space-padded ["2024-02- 6"], which are not in the format
    YYYY-MM-DD, are accepted too, and a summary is built for them. *)
Theorem C7_non_iso_date_is_accepted
    (t : Q) (u d : string)
    (sl : option SleepData.t) (rc : option RecoveryData.t)
    (cy : option CycleData.t) (ph : option (list PhysiologicalData.t)) :
  valid_inputs sl rc cy ph ->
  (Strptime.iso_date d = true ->
   exists s : DailySummary.t,
     compute_daily_summary Strptime.strptime t u d sl rc cy ph = Ok s /\
     valid_summary s) /\
  (Strptime.strptime d "%Y-%m-%d" = false ->
   compute_daily_summary Strptime.strptime t u d sl rc cy ph =
     Raise (ValidationError "Date must be in YYYY-MM-DD format")) /\
  (In d ["2024-2-6"; "2024-02- 6"] ->
   Strptime.iso_date d = false /\
   exists s : DailySummary.t,
     compute_daily_summary Strptime.strptime t u d sl rc cy ph = Ok s /\
     DailySummary.date s = d /\
     DailySummary.recordId s = "summary#" +:+ d).
Proof.
  intros Hv.
  destruct (raises_iff_validator_rejects Strptime.strptime t u d
              sl rc cy ph Hv) as (_ & Hbad & Hgood).
  split; [|split].
  - intros Hiso. apply Hgood, iso_date_accepted, Hiso.
  - exact Hbad.
  - intros Hd.
    assert (Hacc : Strptime.strptime d "%Y-%m-%d" = true
                   /\ Strptime.iso_date d = false).
    { destruct Hd as [<-|[<-|[]]]; split; vm_compute; reflexivity. }
    destruct Hacc as [Hacc Hiso]. split; [exact Hiso|].
    destruct (Hgood Hacc) as (s & Hs & _).
    exists s. split; [exact Hs|].
    apply compute_ok_inv in Hs as [-> _]. split; reflexivity.
Qed.

Lemma C7_non_iso_date_witness :
  Strptime.iso_date "2024-2-6" = false /\
  exists s : DailySummary.t,
    compute_daily_summary Strptime.strptime 1700000000 "test-user-123"
      "2024-2-6" None None None None = Ok s /\
    DailySummary.date s = "2024-2-6" /\
    DailySummary.recordId s = "summary#2024-2-6".
Proof.
  assert (Hv : valid_inputs None None None None) by (repeat split).
  apply (C7_non_iso_date_is_accepted 1700000000 "test-user-123" "2024-2-6"
           None None None None Hv).
  left. reflexivity.
Defined.

(** ** The store boundary *)

Lemma int_nonneg (q : Q) :
  (0 <= q)%Q -> (inject_Z (Py.int q) <= q < inject_Z (Py.int q) + 1)%Q.
Proof.
  destruct q as [n d]. unfold Py.int, Qle, Qlt.
  cbn [Qnum Qden Qplus inject_Z]. intros Hn.
  pose proof (Z.quot_rem' n (Z.pos d)) as Hqr.
  pose proof (Z.rem_bound_pos n (Z.pos d)) as Hr.
  nia.
Qed.

Lemma int_nonpos (q : Q) :
  (q <= 0)%Q -> (inject_Z (Py.int q) - 1 < q <= inject_Z (Py.int q))%Q.
Proof.
  destruct q as [n d]. unfold Py.int, Qle, Qlt.
  cbn [Qnum Qden Qplus Qminus Qopp inject_Z]. intros Hn.
  pose proof (Z.quot_rem' n (Z.pos d)) as Hqr.
  pose proof (Z.rem_bound_pos_neg n (Z.pos d)) as Hr.
  nia.
Qed.

Lemma two_decimals_ok (x : Q) :
  two_decimals x = Ok (inject_Z (Py.int (x * 100)) / 100)%Q.
Proof. reflexivity. Qed.

(** In exact arithmetic the expression is the cut toward zero. *)
Lemma two_decimals_truncates (x : Q) :
  truncated_two_decimals x (inject_Z (Py.int (x * 100)) / 100)%Q.
Proof.
  split; [eexists; reflexivity|].
  assert (E : forall k : Q, (k / 100 == k * (1 # 100))%Q)
    by (intros k; field).
  change (1 / 100)%Q with (1 # 100)%Q.
  split; intros Hx.
  - destruct (int_nonneg (x * 100)) as [H1 H2]; [lra|].
    set (k := inject_Z (Py.int (x * 100))) in *. rewrite E. lra.
  - destruct (int_nonpos (x * 100)) as [H1 H2]; [lra|].
    set (k := inject_Z (Py.int (x * 100))) in *. rewrite E. lra.
Qed.

Lemma put_metric_ok (key : string) (v : option Q) (item : Item) :
  put_metric key v item = Ok (put_metric_pure key v item).
Proof. destruct v; reflexivity. Qed.

Lemma lookup_put_metric_ne (k k' : string) (v : option Q) (item : Item) :
  k <> k' -> put_metric_pure k v item !! k' = item !! k'.
Proof.
  intros H. destruct v; [|reflexivity]. apply lookup_insert_ne, H.
Qed.

Lemma lookup_put_metric_eq (k : string) (v : option Q) (item : Item) :
  put_metric_pure k v item !! k =
    match v with
    | Some x => Some (AFloat (inject_Z (Py.int (x * 100)) / 100)%Q)
    | None => item !! k
    end.
Proof. destruct v; [apply lookup_insert_eq | reflexivity]. Qed.

Lemma summary_item_ok (s : DailySummary.t) : summary_item s = Ok (item_of s).
Proof.
  unfold summary_item.
  repeat (rewrite put_metric_ok; cbn [rbind]).
  reflexivity.
Qed.

(** Lookup of a literal key through the inserts of an item. *)
Ltac lookup_item :=
  repeat first
    [ rewrite lookup_insert_eq
    | rewrite lookup_put_metric_eq
    | rewrite lookup_insert_ne by discriminate
    | rewrite lookup_put_metric_ne by discriminate
    | rewrite lookup_empty ].

Lemma item_metric_lookup (s : DailySummary.t) (k : string)
    (f : DailySummary.t -> option Q) :
  In (k, f) optional_metrics ->
  item_of s !! k =
    match f s with
    | Some x => Some (AFloat (inject_Z (Py.int (x * 100)) / 100)%Q)
    | None => None
    end.
Proof.
  intros Hin. unfold optional_metrics in Hin.
  repeat (destruct Hin as [[= <- <-] | Hin];
          [unfold item_of; lookup_item; reflexivity|]).
  destruct Hin.
Qed.

Lemma item_mandatory_lookup (s : DailySummary.t) :
  item_of s !! "userId" = Some (AStr (DailySummary.userId s)) /\
  item_of s !! "recordId" = Some (AStr (DailySummary.recordId s)) /\
  item_of s !! "date" = Some (AStr (DailySummary.date s)) /\
  item_of s !! "computedAt" = Some (AInt (DailySummary.computedAt s)) /\
  item_of s !! "ttl" = Some (AInt (DailySummary.ttl s)).
Proof. unfold item_of. repeat split; lookup_item; reflexivity. Qed.

Lemma item_flags_lookup (s : DailySummary.t) :
  let c := DailySummary.dataCompleteness s in
  item_of s !! "dataCompleteness" = Some (AMap (flags_map c)) /\
  flags_map c !! "hasSleep" = Some (DataCompleteness.hasSleep c) /\
  flags_map c !! "hasRecovery" = Some (DataCompleteness.hasRecovery c) /\
  flags_map c !! "hasWorkout" = Some (DataCompleteness.hasWorkout c) /\
  flags_map c !! "hasCycle" = Some (DataCompleteness.hasCycle c) /\
  flags_map c !! "hasPhysiological" =
    Some (DataCompleteness.hasPhysiological c).
Proof.
  intros c. unfold item_of, flags_map. repeat split; lookup_item; reflexivity.
Qed.

Lemma lookup_put_metric (k k' : string) (v : option Q) (item : Item) :
  is_Some (put_metric_pure k v item !! k') ->
  (k = k' /\ is_Some v) \/ is_Some (item !! k').
Proof.
  destruct v as [x|]; cbn [put_metric_pure]; [|auto].
  destruct (decide (k = k')) as [->|Hne].
  - intros _. left. eauto.
  - rewrite lookup_insert_ne by exact Hne. auto.
Qed.

Lemma lookup_insert_is_Some_inv {V : Type} (k k' : string) (v : V)
    (m : gmap string V) :
  is_Some (<[k := v]> m !! k') -> k = k' \/ is_Some (m !! k').
Proof.
  destruct (decide (k = k')) as [->|Hne]; [auto|].
  rewrite lookup_insert_ne by exact Hne. auto.
Qed.

Lemma item_keys (s : DailySummary.t) (k : string) :
  is_Some (item_of s !! k) ->
  In k mandatory_keys \/ k = "dataCompleteness" \/
  exists f, In (k, f) optional_metrics /\ is_Some (f s).
Proof.
  unfold item_of. intros H.
  apply lookup_insert_is_Some_inv in H as [<-|H]; [auto|].
  repeat (apply lookup_put_metric in H as [[<- Hv]|H];
          [right; right; eexists; split; [|exact Hv]; cbn; tauto|]).
  repeat (apply lookup_insert_is_Some_inv in H as [<-|H];
          [left; cbn; tauto|]).
  rewrite lookup_empty in H. destruct H as [x Hx]. discriminate.
Qed.

Lemma store_puts_item (self : AnalyticsService) (client : DynamoDBClient)
    (summary : DailySummary.t) (log : list event) :
  dynamodb_client self = Some client ->
  In (EvPutItem (summaries_table self) (item_of summary))
     (snd (store_daily_summary self summary log)).
Proof.
  intros Hc. unfold store_daily_summary.
  rewrite Hc, summary_item_ok.
  destruct (put_item client _ _); cbn [snd];
    rewrite ?in_app_iff; cbn [In]; tauto.
Qed.

(** C8. Without a configured client, storing a summary and querying
    summaries both raise the configuration error, and nothing is sent to
    the store or printed. *)
Theorem C8_unconfigured_store_raises
    (strptime : string -> string -> bool) (self : AnalyticsService)
    (summary : DailySummary.t) (today thirty_days_ago user_id : string)
    (start_date end_date : option string) (limit : Z) (log : list event) :
  dynamodb_client self = None ->
  store_daily_summary self summary log =
    (Raise (ValueError "DynamoDB client not configured"), log) /\
  get_daily_summaries strptime self today thirty_days_ago user_id
      start_date end_date limit log =
    (Raise (ValueError "DynamoDB client not configured"), log).
Proof.
  intros Hc. unfold store_daily_summary, get_daily_summaries.
  rewrite Hc. split; reflexivity.
Qed.

Lemma C8_unconfigured_witness :
  store_daily_summary Sample.unconfigured_service Sample.sample_summary [] =
    (Raise (ValueError "DynamoDB client not configured"), []) /\
  get_daily_summaries Sample.strptime Sample.unconfigured_service
      "2024-02-06" "2024-01-07" "test-user" None None 30 [] =
    (Raise (ValueError "DynamoDB client not configured"), []).
Proof.
  apply (C8_unconfigured_store_raises Sample.strptime
           Sample.unconfigured_service).
  reflexivity.
Defined.

(** The exact reading at 75.999 and -1.999: 75.99 and -1.99. *)
Example two_decimals_cuts :
  two_decimals (75999 # 1000) = Ok ((7599 # 1) / 100)%Q /\
  two_decimals (-1999 # 1000) = Ok ((-199 # 1) / 100)%Q.
Proof. split; reflexivity. Qed.

(** C9. The storage expression [int(x * 100) / 100], evaluated in
    binary64 arithmetic, does not always cut toward zero: for the double
    99.92999999999999, which lies in [99.92, 99.93), the product rounds
    to 9993.0 and 99.93 is stored, more than the value.  It does not
    round either: 75.999 is stored as 75.99, not as 76.0. *)
Theorem C9_cut_can_exceed_the_value :
  let x := Double.decimal 9992999999999999 14 in
  let y := Double.decimal 9993 2 in
  Double.two_decimals x = Ok y /\
  Double.ltb x y = true /\
  (9992 # 100 <= Double.to_Q x < 9993 # 100)%Q /\
  (Double.to_Q x < Double.to_Q y)%Q /\
  Double.two_decimals (Double.decimal 75999 3) = Ok (Double.decimal 7599 2) /\
  Double.ltb (Double.decimal 7599 2) (Double.decimal 76 0) = true.
Proof. cbv zeta. concrete. Qed.

(** C10. The item built for storage has an attribute for an optional
    metric iff the summary field is not None; it always has userId,
    recordId, date, computedAt, ttl and a dataCompleteness map with all
    five flags; and it has no other attribute. *)
Theorem C10_item_attributes
    (self : AnalyticsService) (client : DynamoDBClient)
    (summary : DailySummary.t) (log : list event) :
  dynamodb_client self = Some client ->
  exists item : Item,
    summary_item summary = Ok item /\
    In (EvPutItem (summaries_table self) item)
       (snd (store_daily_summary self summary log)) /\
    (forall k f, In (k, f) optional_metrics ->
                 (is_Some (item !! k) <-> is_Some (f summary))) /\
    (forall k, In k mandatory_keys -> is_Some (item !! k)) /\
    (exists m : gmap string bool,
        let c := DailySummary.dataCompleteness summary in
        item !! "dataCompleteness" = Some (AMap m) /\
        m !! "hasSleep" = Some (DataCompleteness.hasSleep c) /\
        m !! "hasRecovery" = Some (DataCompleteness.hasRecovery c) /\
        m !! "hasWorkout" = Some (DataCompleteness.hasWorkout c) /\
        m !! "hasCycle" = Some (DataCompleteness.hasCycle c) /\
        m !! "hasPhysiological" = Some (DataCompleteness.hasPhysiological c)) /\
    (forall k, is_Some (item !! k) ->
               In k mandatory_keys \/ k = "dataCompleteness" \/
               exists f, In (k, f) optional_metrics /\ is_Some (f summary)).
Proof.
  intros Hc. exists (item_of summary).
  split; [apply summary_item_ok|].
  split; [apply (store_puts_item self client), Hc|].
  split; [|split; [|split]].
  - intros k f Hin. rewrite (item_metric_lookup summary k f Hin).
    destruct (f summary); split; intros [x Hx]; try discriminate; eauto.
  - pose proof (item_mandatory_lookup summary) as (H1 & H2 & H3 & H4 & H5).
    intros k [<-|[<-|[<-|[<-|[<-|[]]]]]]; eauto.
  - eexists. apply item_flags_lookup.
  - apply item_keys.
Qed.

Lemma C10_item_attributes_witness :
  exists item : Item,
    summary_item Sample.sample_summary = Ok item /\
    is_Some (item !! "recoveryScore") /\ item !! "totalStrain" = None.
Proof.
  destruct (C10_item_attributes Sample.service Sample.mock_dynamodb
              Sample.sample_summary [] eq_refl)
    as (item & Hitem & _ & Hopt & _).
  exists item. split; [exact Hitem|]. split.
  - apply (Hopt "recoveryScore" DailySummary.recoveryScore).
    + cbn. tauto.
    + eexists. reflexivity.
  - destruct (item !! "totalStrain") eqn:E; [|reflexivity].
    assert (Hs : is_Some (DailySummary.totalStrain Sample.sample_summary)).
    { apply (Hopt "totalStrain" DailySummary.totalStrain).
      - cbn. tauto.
      - rewrite E. eauto. }
    destruct Hs as [x Hx]. discriminate.
Defined.

(** * Further properties of the service *)

(** ** The scorer *)

Lemma duration_score_bounds (h : Q) : (10 <= duration_score h <= 40)%Z.
Proof.
  unfold duration_score.
  repeat match goal with
         | |- context [if ?b then _ else _] => destruct b
         end; lia.
Qed.

Lemma efficiency_of_nonneg (s : SleepData.t) :
  SleepData.valid s -> (0 <= efficiency_of s)%Q.
Proof.
  intros (_ & Hq & _). unfold efficiency_of. cmp_cases; [|lra].
  apply Qle_shift_div_l; [exact E | lra].
Qed.

Lemma efficiency_score_bounds (e : Q) :
  (0 <= e)%Q -> (0 <= efficiency_score e <= 40)%Q.
Proof. intros He. unfold efficiency_score, Py.min. cmp_cases; lra. Qed.

Lemma efficiency_score_full (e : Q) :
  (1 <= e)%Q -> efficiency_score e = 40%Q.
Proof.
  intros He. unfold efficiency_score, Py.min.
  destruct (Py.ltb (e * 40) 40) eqn:E; [|reflexivity].
  apply ltb_lt in E. lra.
Qed.

Lemma disturbance_score_bounds (s : SleepData.t) :
  (0 <= disturbance_score s <= 20)%Z \/
  (SleepData.disturbanceCount s < 0)%Z.
Proof. unfold disturbance_score. rewrite maxZ_is_Zmax. lia. Qed.

Lemma clamp_id (x : Q) :
  (0 <= x <= 100)%Q -> (Py.min 100 (Py.max 0 x) == x)%Q.
Proof.
  intros H. unfold Py.max. cmp_cases; unfold Py.min; cmp_cases; lra.
Qed.

Lemma round_clamp_Z (n : Z) (x : Q) :
  (0 <= n <= 100)%Z -> (x == inject_Z n)%Q ->
  Py.round (Py.min 100 (Py.max 0 x)) = n.
Proof.
  intros Hn Hx.
  transitivity (Py.round (inject_Z n)); [|apply round_inject_Z].
  apply round_comp. rewrite clamp_id; [exact Hx|].
  rewrite Hx. destruct Hn as [H0 H100]. rewrite Zle_Qle in H0, H100.
  split; assumption.
Qed.

Lemma hours_scaled (d : Q) : (d == d / 3600000 * 3600000)%Q.
Proof. field. Qed.

(** X1. A sleep of 7 to 9 hours whose quality duration is at least the
    duration, with no disturbance, scores 100. *)
Theorem X1_perfect_score (s : SleepData.t) :
  SleepData.valid s ->
  (7 <= SleepData.duration s / 3600000 <= 9)%Q ->
  (SleepData.duration s <= SleepData.qualityDuration s)%Q ->
  SleepData.disturbanceCount s = 0 ->
  calculate_sleep_quality_score s = Ok 100.
Proof.
  intros _ [H7 H9] Hq Hc. rewrite score_total. f_equal.
  unfold sleep_score_of. apply round_clamp_Z; [lia|].
  pose proof (hours_scaled (SleepData.duration s)) as Hd.
  set (h := (SleepData.duration s / 3600000)%Q) in *.
  assert (Hpos : (0 < SleepData.duration s)%Q) by lra.
  assert (Hdur : duration_score h = 40).
  { unfold duration_score. cmp_cases; try reflexivity; lra. }
  assert (Heff : efficiency_score (efficiency_of s) = 40%Q).
  { apply efficiency_score_full. unfold efficiency_of.
    cmp_cases; [|lra]. apply Qle_shift_div_l; lra. }
  unfold total_score, disturbance_score.
  rewrite Hdur, Heff, Hc. reflexivity.
Qed.

Lemma X1_perfect_score_witness :
  calculate_sleep_quality_score (Sample.sleep Sample.eight_hours_ms 1 0)
    = Ok 100.
Proof.
  apply X1_perfect_score; [concrete | concrete | concrete | reflexivity].
Defined.

(** X2. The score of a valid sleep record is never below 10, and the
    clamp to [0,100] never changes the sum of the sub-scores: the score
    is that sum rounded. *)
Theorem X2_score_at_least_ten (s : SleepData.t) :
  SleepData.valid s ->
  exists score : Z,
    calculate_sleep_quality_score s = Ok score /\
    (10 <= score <= 100)%Z /\
    score =
      Py.round (total_score (duration_score (SleepData.duration s / 3600000)%Q)
                            (efficiency_score (efficiency_of s))
                            (disturbance_score s)).
Proof.
  intros Hv. exists (sleep_score_of s).
  split; [apply score_total|].
  pose proof (duration_score_bounds (SleepData.duration s / 3600000)%Q)
    as [Hd1 Hd2].
  pose proof (efficiency_score_bounds _ (efficiency_of_nonneg s Hv))
    as [He1 He2].
  assert (Hc : (0 <= SleepData.disturbanceCount s)%Z) by apply Hv.
  destruct (disturbance_score_bounds s) as [[Hb1 Hb2]|Hneg]; [|lia].
  rewrite Zle_Qle in Hd1, Hd2, Hb1, Hb2.
  set (t := total_score _ _ _).
  assert (Ht : (10 <= t <= 100)%Q).
  { unfold t, total_score.
    change (inject_Z 10) with 10%Q in Hd1.
    change (inject_Z 40) with 40%Q in Hd2.
    change (inject_Z 0) with 0%Q in Hb1.
    change (inject_Z 20) with 20%Q in Hb2. lra. }
  assert (Hs : sleep_score_of s = Py.round t).
  { unfold sleep_score_of. fold t. apply round_comp, clamp_id. lra. }
  split; [|exact Hs].
  rewrite Hs. split.
  - change 10%Z with (Py.round (inject_Z 10)).
    apply round_le_mono. change (inject_Z 10) with 10%Q. lra.
  - change 100%Z with (Py.round (inject_Z 100)).
    apply round_le_mono. change (inject_Z 100) with 100%Q. lra.
Qed.

Lemma X2_score_at_least_ten_witness :
  exists score : Z,
    calculate_sleep_quality_score
      (Sample.sleep (2 * 3600000) (3 # 10) 20) = Ok score /\
    (10 <= score)%Z.
Proof.
  assert (Hv : SleepData.valid (Sample.sleep (2 * 3600000) (3 # 10) 20))
    by concrete.
  destruct (X2_score_at_least_ten _ Hv) as (score & Hs & [H10 _] & _).
  exists score. split; [exact Hs | exact H10].
Defined.

Lemma efficiency_of_mono (s : SleepData.t) (q1 q2 : Q) :
  (q1 <= q2)%Q ->
  (efficiency_of (with_qualityDuration s q1)
   <= efficiency_of (with_qualityDuration s q2))%Q.
Proof.
  intros Hq. unfold efficiency_of.
  cbn [SleepData.duration SleepData.qualityDuration with_qualityDuration].
  cmp_cases; [|lra].
  unfold Qdiv. apply Qmult_le_compat_r; [exact Hq|].
  apply Qlt_le_weak, Qinv_lt_0_compat, E.
Qed.

(** X3. With duration and disturbance count fixed, a larger quality
    duration never gives a lower score, and a quality duration beyond
    the duration earns nothing more. *)
Theorem X3_score_monotone_in_quality
    (s : SleepData.t) (q1 q2 : Q) :
  SleepData.valid (with_qualityDuration s q1) ->
  SleepData.valid (with_qualityDuration s q2) ->
  (q1 <= q2)%Q ->
  exists z1 z2 : Z,
    calculate_sleep_quality_score (with_qualityDuration s q1) = Ok z1 /\
    calculate_sleep_quality_score (with_qualityDuration s q2) = Ok z2 /\
    (z1 <= z2)%Z /\
    ((0 < SleepData.duration s <= q1)%Q -> z1 = z2).
Proof.
  intros _ _ Hq.
  exists (sleep_score_of (with_qualityDuration s q1)),
         (sleep_score_of (with_qualityDuration s q2)).
  split; [apply score_total|]. split; [apply score_total|].
  split.
  - apply round_le_mono, clamp_le_mono. unfold total_score.
    pose proof (efficiency_score_le _ _ (efficiency_of_mono s q1 q2 Hq)) as He.
    change (disturbance_score (with_qualityDuration s q2))
      with (disturbance_score (with_qualityDuration s q1)).
    cbn [SleepData.duration with_qualityDuration]. lra.
  - intros [Hd Hq1]. unfold sleep_score_of.
    assert (Hfull : forall q, (SleepData.duration s <= q)%Q ->
              efficiency_score (efficiency_of (with_qualityDuration s q))
              = 40%Q).
    { intros q Hle. apply efficiency_score_full. unfold efficiency_of.
      cbn [SleepData.duration SleepData.qualityDuration with_qualityDuration].
      cmp_cases; [|lra]. apply Qle_shift_div_l; lra. }
    rewrite (Hfull q1) by exact Hq1. rewrite (Hfull q2) by lra.
    reflexivity.
Qed.

Lemma X3_score_monotone_witness :
  exists z1 z2 : Z,
    calculate_sleep_quality_score
      (with_qualityDuration Sample.sample_sleep_data 14400000) = Ok z1 /\
    calculate_sleep_quality_score
      (with_qualityDuration Sample.sample_sleep_data 28800000) = Ok z2 /\
    (z1 <= z2)%Z.
Proof.
  assert (H1 : SleepData.valid
                 (with_qualityDuration Sample.sample_sleep_data 14400000))
    by concrete.
  assert (H2 : SleepData.valid
                 (with_qualityDuration Sample.sample_sleep_data 28800000))
    by concrete.
  assert (H3 : (14400000 <= 28800000)%Q) by concrete.
  destruct (X3_score_monotone_in_quality _ _ _ H1 H2 H3)
    as (z1 & z2 & Hz1 & Hz2 & Hle & _).
  exists z1, z2. split; [exact Hz1|]. split; [exact Hz2 | exact Hle].
Defined.

(** X4. A sleep record of duration 0 does not divide by zero: its score
    is 10 plus the disturbance sub-score. *)
Theorem X4_zero_duration_score (s : SleepData.t) :
  SleepData.valid s ->
  (SleepData.duration s == 0)%Q ->
  calculate_sleep_quality_score s =
    Ok (10 + Z.max 0 (20 - 2 * SleepData.disturbanceCount s))%Z.
Proof.
  intros Hv Hd. rewrite score_total. f_equal.
  assert (Hc : (0 <= SleepData.disturbanceCount s)%Z) by apply Hv.
  unfold sleep_score_of. apply round_clamp_Z; [lia|].
  pose proof (hours_scaled (SleepData.duration s)) as Hh.
  set (h := (SleepData.duration s / 3600000)%Q) in *.
  assert (Hdur : duration_score h = 10).
  { unfold duration_score. cmp_cases; try reflexivity; lra. }
  assert (Heff : (efficiency_score (efficiency_of s) == 0)%Q).
  { unfold efficiency_of. cmp_cases; [lra|].
    unfold efficiency_score, Py.min. cmp_cases; lra. }
  unfold total_score. rewrite Hdur, Heff.
  unfold disturbance_score. rewrite maxZ_is_Zmax.
  replace (20 - SleepData.disturbanceCount s * 2)%Z
    with (20 - 2 * SleepData.disturbanceCount s)%Z by lia.
  rewrite inject_Z_plus. change (inject_Z 10) with 10%Q. lra.
Qed.

Lemma X4_zero_duration_witness :
  calculate_sleep_quality_score (Sample.sleep 0 (9 # 10) 2) = Ok 26.
Proof.
  apply (X4_zero_duration_score (Sample.sleep 0 (9 # 10) 2)); concrete.
Defined.

(** ** The summarizer and the summary constructor *)

Lemma is_not_None_true {A : Type} (o : option A) :
  is_not_None o = true <-> is_Some o.
Proof.
  destruct o; cbn; split; intros H; eauto; try discriminate.
  destruct H as [x H]. discriminate.
Qed.

(** X5. In a returned summary the completeness flags agree with the
    fields: hasSleep holds iff the sleep score (and the sleep duration)
    is present, hasRecovery iff the recovery score (and the resting heart
    rate) is present, hasCycle iff the strain is present,
    hasPhysiological iff the respiratory rate is present, and an average
    HRV is present only if hasPhysiological holds. *)
Theorem X5_flags_agree_with_fields
    (strptime : string -> string -> bool) (t : Q) (u d : string)
    (sl : option SleepData.t) (rc : option RecoveryData.t)
    (cy : option CycleData.t) (ph : option (list PhysiologicalData.t))
    (s : DailySummary.t) :
  compute_daily_summary strptime t u d sl rc cy ph = Ok s ->
  let c := DailySummary.dataCompleteness s in
  (DataCompleteness.hasSleep c = true <->
   is_Some (DailySummary.sleepQualityScore s)) /\
  (DataCompleteness.hasSleep c = true <->
   is_Some (DailySummary.sleepDuration s)) /\
  (DataCompleteness.hasRecovery c = true <->
   is_Some (DailySummary.recoveryScore s)) /\
  (DataCompleteness.hasRecovery c = true <->
   is_Some (DailySummary.restingHeartRate s)) /\
  (DataCompleteness.hasCycle c = true <->
   is_Some (DailySummary.totalStrain s)) /\
  (DataCompleteness.hasPhysiological c = true <->
   is_Some (DailySummary.respiratoryRate s)) /\
  (is_Some (DailySummary.averageHRV s) ->
   DataCompleteness.hasPhysiological c = true).
Proof.
  intros H. apply compute_ok_inv in H as [-> _].
  unfold summary_fields.
  cbn [DailySummary.dataCompleteness DailySummary.recoveryScore
       DailySummary.sleepQualityScore DailySummary.totalStrain
       DailySummary.sleepDuration DailySummary.averageHRV
       DailySummary.restingHeartRate DailySummary.respiratoryRate
       DataCompleteness.hasSleep DataCompleteness.hasRecovery
       DataCompleteness.hasCycle DataCompleteness.hasPhysiological].
  rewrite !is_Some_option_map, !is_not_None_true.
  repeat (split; [reflexivity|]).
  destruct ph as [[|p ps]|]; cbn [default from_option id map
    truthy_hrv_values omap list_omap opt_mean Py.len length].
  - split; [split; [discriminate | intros [x Hx]; discriminate]|].
    intros [x Hx]. discriminate.
  - split; [split; [eauto | reflexivity] | reflexivity].
  - split; [split; [discriminate | intros [x Hx]; discriminate]|].
    intros [x Hx]. discriminate.
Qed.

Lemma X5_flags_agree_witness :
  exists s : DailySummary.t,
    compute_daily_summary Sample.strptime 1700000000 "test-user-123"
      "2024-02-06" (Some Sample.sample_sleep_data)
      (Some Sample.sample_recovery_data) (Some Sample.sample_cycle_data)
      (Some Sample.sample_physiological_data) = Ok s /\
    (DataCompleteness.hasPhysiological (DailySummary.dataCompleteness s)
       = true <-> is_Some (DailySummary.respiratoryRate s)).
Proof.
  destruct sample_summary_ok as [s Hs].
  exists s. split; [exact Hs|].
  apply (X5_flags_agree_with_fields _ _ _ _ _ _ _ _ _ Hs).
Defined.

(** X6. A returned summary carries the user id and date it was asked
    for, the record id ["summary#" + date], the truncated clock reading
    as computedAt and a ttl 30 days (2,592,000 s) later; recovery score,
    resting heart rate and strain are those of the records; the sleep
    score is the value [calculate_sleep_quality_score] returns and the
    sleep duration is the duration in hours. *)
Theorem X6_summary_contents
    (strptime : string -> string -> bool) (t : Q) (u d : string)
    (sl : option SleepData.t) (rc : option RecoveryData.t)
    (cy : option CycleData.t) (ph : option (list PhysiologicalData.t))
    (s : DailySummary.t) :
  compute_daily_summary strptime t u d sl rc cy ph = Ok s ->
  DailySummary.userId s = u /\
  DailySummary.date s = d /\
  DailySummary.recordId s = "summary#" +:+ d /\
  DailySummary.computedAt s = Py.int t /\
  DailySummary.ttl s = (DailySummary.computedAt s + 2592000)%Z /\
  DailySummary.recoveryScore s = option_map RecoveryData.recoveryScore rc /\
  DailySummary.restingHeartRate s
    = option_map RecoveryData.restingHeartRate rc /\
  DailySummary.totalStrain s = option_map CycleData.strain cy /\
  match sl with
  | Some x =>
      exists z : Z,
        calculate_sleep_quality_score x = Ok z /\
        DailySummary.sleepQualityScore s = Some (inject_Z z) /\
        DailySummary.sleepDuration s
          = Some (SleepData.duration x / 3600000)%Q
  | None =>
      DailySummary.sleepQualityScore s = None /\
      DailySummary.sleepDuration s = None
  end.
Proof.
  intros H. apply compute_ok_inv in H as [-> _].
  unfold summary_fields.
  cbn [DailySummary.userId DailySummary.date DailySummary.recordId
       DailySummary.computedAt DailySummary.ttl DailySummary.recoveryScore
       DailySummary.restingHeartRate DailySummary.totalStrain
       DailySummary.sleepQualityScore DailySummary.sleepDuration].
  repeat (split; [reflexivity|]).
  destruct sl as [x|]; cbn [option_map].
  - exists (sleep_score_of x). split; [apply score_total|]. split; reflexivity.
  - split; reflexivity.
Qed.

Lemma X6_summary_contents_witness :
  exists s : DailySummary.t,
    compute_daily_summary Sample.strptime 1700000000 "test-user-123"
      "2024-02-06" (Some Sample.sample_sleep_data)
      (Some Sample.sample_recovery_data) (Some Sample.sample_cycle_data)
      (Some Sample.sample_physiological_data) = Ok s /\
    DailySummary.recordId s = "summary#2024-02-06" /\
    DailySummary.ttl s = (DailySummary.computedAt s + 2592000)%Z.
Proof.
  destruct sample_summary_ok as [s Hs].
  exists s. split; [exact Hs|].
  destruct (X6_summary_contents _ _ _ _ _ _ _ _ _ Hs)
    as (_ & _ & Hr & _ & Ht & _).
  split; [exact Hr | exact Ht].
Defined.

(** [DailySummary(...)] yields the object exactly when the date is
    accepted by the date validator and every present optional field is
    in its declared range; any other outcome is a validation error. *)
Theorem constructor_contract
    (strptime : string -> string -> bool) (s : DailySummary.t) :
  (forall s' : DailySummary.t,
      DailySummary.new strptime s = Ok s' <->
      s' = s /\ strptime (DailySummary.date s) "%Y-%m-%d" = true /\
      valid_summary s) /\
  (forall e : exn,
      DailySummary.new strptime s = Raise e ->
      exists msg, e = ValidationError msg).
Proof.
  split.
  - intros s'. rewrite <- fields_ok_valid. split.
    + intros H. apply new_inv in H. tauto.
    + intros (-> & Hd & Hok).
      unfold DailySummary.new, DailySummary.validate_date_format.
      rewrite Hd, Hok. reflexivity.
  - intros e. unfold DailySummary.new, DailySummary.validate_date_format.
    destruct (strptime _ _); cbn.
    + destruct (DailySummary.fields_ok s); [discriminate|].
      intros [= <-]. eauto.
    + intros [= <-]. eauto.
Qed.

Lemma constructor_contract_sample :
  DailySummary.new Sample.strptime Sample.sample_summary
    = Ok Sample.sample_summary.
Proof.
  apply (constructor_contract Sample.strptime Sample.sample_summary).
  split; [reflexivity|]. split; [reflexivity|]. concrete.
Defined.

(** ** Storing a summary *)

(** X7. With a configured client [store_daily_summary] does not raise:
    it sends exactly one [put_item] for the summaries table, and returns
    True if the client accepts it; if the client raises, it prints the
    error and returns False. *)
Theorem X7_store_outcome
    (self : AnalyticsService) (client : DynamoDBClient)
    (summary : DailySummary.t) (log : list event) :
  dynamodb_client self = Some client ->
  exists item : Item,
    summary_item summary = Ok item /\
    match put_item client (summaries_table self) item with
    | Ok _ =>
        store_daily_summary self summary log =
          (Ok true, log ++ [EvPutItem (summaries_table self) item])
    | Raise e =>
        store_daily_summary self summary log =
          (Ok false,
           log ++ [EvPutItem (summaries_table self) item;
                   EvPrint ("Error storing daily summary: " +:+ exn_str e)])
    end.
Proof.
  intros Hc. exists (item_of summary).
  split; [apply summary_item_ok|].
  unfold store_daily_summary. rewrite Hc, summary_item_ok.
  destruct (put_item client _ _); [reflexivity|].
  rewrite <- app_assoc. reflexivity.
Qed.

Lemma X7_store_outcome_witness :
  exists item : Item,
    store_daily_summary Sample.service Sample.sample_summary [] =
      (Ok true, [EvPutItem "daily_summaries" item]).
Proof.
  destruct (X7_store_outcome Sample.service Sample.mock_dynamodb
              Sample.sample_summary [] eq_refl) as (item & _ & H).
  exists item. exact H.
Defined.

Lemma int_inject_Z (z : Z) : Py.int (inject_Z z * 100) = (z * 100)%Z.
Proof. unfold Py.int. cbn [Qnum Qden Qmult inject_Z]. apply Z.quot_1_r. Qed.

Lemma cut2_inject_Z (z : Z) : (cut2 (inject_Z z) == inject_Z z)%Q.
Proof.
  unfold cut2. rewrite int_inject_Z, inject_Z_mult.
  change (inject_Z 100) with 100%Q. field.
Qed.

(** X8. Computing a summary from a sleep record and storing it keeps the
    sleep score intact: the stored sleepQualityScore equals the integer
    score, the stored recordId is ["summary#" + date], and the store
    call succeeds whenever the client accepts the item. *)
Theorem X8_compute_then_store
    (strptime : string -> string -> bool) (t : Q) (u d : string)
    (x : SleepData.t) (rc : option RecoveryData.t)
    (cy : option CycleData.t) (ph : option (list PhysiologicalData.t))
    (self : AnalyticsService) (client : DynamoDBClient) (log : list event) :
  valid_inputs (Some x) rc cy ph ->
  strptime d "%Y-%m-%d" = true ->
  dynamodb_client self = Some client ->
  exists (s : DailySummary.t) (z : Z) (item : Item) (y : Q),
    compute_daily_summary strptime t u d (Some x) rc cy ph = Ok s /\
    calculate_sleep_quality_score x = Ok z /\
    summary_item s = Ok item /\
    item !! "sleepQualityScore" = Some (AFloat y) /\ (y == inject_Z z)%Q /\
    item !! "recordId" = Some (AStr ("summary#" +:+ d)) /\
    (put_item client (summaries_table self) item = Ok tt ->
     fst (store_daily_summary self s log) = Ok true).
Proof.
  intros Hv Hd Hc.
  exists (summary_fields t u d (Some x) rc cy ph), (sleep_score_of x),
    (item_of (summary_fields t u d (Some x) rc cy ph)),
    (cut2 (inject_Z (sleep_score_of x))).
  split.
  { rewrite compute_is_new.
    unfold DailySummary.new, DailySummary.validate_date_format.
    change (DailySummary.date (summary_fields t u d (Some x) rc cy ph)) with d.
    rewrite Hd.
    rewrite (proj2 (fields_ok_valid _) (summary_fields_valid _ _ _ _ _ _ _ Hv)).
    reflexivity. }
  split; [apply score_total|].
  split; [apply summary_item_ok|].
  split.
  { rewrite (item_metric_lookup _ "sleepQualityScore"
               DailySummary.sleepQualityScore) by (cbn; tauto).
    reflexivity. }
  split; [apply cut2_inject_Z|].
  split; [apply item_mandatory_lookup|].
  intros Hput. unfold store_daily_summary.
  rewrite Hc, summary_item_ok, Hput. reflexivity.
Qed.

Lemma X8_compute_then_store_witness :
  exists (s : DailySummary.t) (item : Item) (y : Q),
    compute_daily_summary Sample.strptime 1700000000 "test-user"
      "2024-02-06" (Some Sample.sample_sleep_data)
      (Some Sample.sample_recovery_data) None None = Ok s /\
    summary_item s = Ok item /\
    item !! "sleepQualityScore" = Some (AFloat y) /\ (y == 92)%Q.
Proof.
  assert (Hv : valid_inputs (Some Sample.sample_sleep_data)
                 (Some Sample.sample_recovery_data) None None).
  { split; [exact sample_sleep_valid|]. split; [concrete|].
    split; exact I. }
  destruct (X8_compute_then_store Sample.strptime 1700000000 "test-user"
              "2024-02-06" Sample.sample_sleep_data
              (Some Sample.sample_recovery_data) None None
              Sample.service Sample.mock_dynamodb [] Hv eq_refl eq_refl)
    as (s & z & item & y & Hs & Hz & Hitem & Hy & Hyz & _).
  exists s, item, y. split; [exact Hs|]. split; [exact Hitem|].
  split; [exact Hy|].
  assert (E : Ok z = Ok 92%Z :> result Z) by (rewrite <- Hz; reflexivity).
  injection E as ->. exact Hyz.
Defined.

(** ** Reading a stored item back *)

Lemma int_nonneg_Z (q : Q) : (0 <= q)%Q -> (0 <= Py.int q)%Z.
Proof.
  intros Hq. destruct (int_nonneg q Hq) as [_ Hhi].
  assert (H : (inject_Z 0 < inject_Z (Py.int q + 1))%Q).
  { inj_succ. change (inject_Z 0) with 0%Q. lra. }
  rewrite <- Zlt_Qlt in H. lia.
Qed.

Lemma div100 (k : Q) : (k / 100 == k * (1 # 100))%Q.
Proof. field. Qed.

Lemma cut2_nonneg (x : Q) : (0 <= x)%Q -> (0 <= cut2 x <= x)%Q.
Proof.
  intros Hx. unfold cut2.
  assert (Hq : (0 <= x * 100)%Q) by lra.
  pose proof (int_nonneg_Z _ Hq) as Hk. rewrite Zle_Qle in Hk.
  destruct (int_nonneg _ Hq) as [Hlo _].
  change (inject_Z 0) with 0%Q in Hk.
  rewrite div100. lra.
Qed.

Lemma cut2_keeps_cent (x : Q) : (1 # 100 <= x)%Q -> (1 # 100 <= cut2 x)%Q.
Proof.
  intros Hx. unfold cut2.
  assert (Hq : (0 <= x * 100)%Q) by lra.
  destruct (int_nonneg _ Hq) as [_ Hhi].
  assert (H : (inject_Z 1 < inject_Z (Py.int (x * 100) + 1))%Q).
  { inj_succ. lra. }
  rewrite <- Zlt_Qlt in H.
  assert (Hk : (1 <= Py.int (x * 100))%Z) by lia.
  rewrite Zle_Qle in Hk. change (inject_Z 1) with 1%Q in Hk.
  rewrite div100. lra.
Qed.

Lemma cut2_small (x : Q) : (0 <= x < 1 # 100)%Q -> (cut2 x == 0)%Q.
Proof.
  intros [H0 H1]. unfold cut2.
  assert (Hq : (0 <= x * 100)%Q) by lra.
  pose proof (int_nonneg_Z _ Hq) as Hk.
  destruct (int_nonneg _ Hq) as [Hlo _].
  assert (H : (inject_Z (Py.int (x * 100)) < inject_Z 1)%Q).
  { change (inject_Z 1) with 1%Q. lra. }
  rewrite <- Zlt_Qlt in H.
  replace (Py.int (x * 100)) with 0%Z by lia. reflexivity.
Qed.

Lemma as_opt_float_metric (o : option Q) :
  as_opt_float
    match o with
    | Some x => Some (AFloat (inject_Z (Py.int (x * 100)) / 100)%Q)
    | None => None
    end = Ok (option_map cut2 o).
Proof. destruct o; reflexivity. Qed.

(** Conversion of the item built from a summary, up to validation. *)
Lemma body_of_item (strptime : string -> string -> bool)
    (s : DailySummary.t) :
  item_to_summary_body strptime (item_of s) =
    DailySummary.new strptime (truncate_metrics s).
Proof.
  unfold item_to_summary_body, getitem.
  pose proof (item_flags_lookup s) as (Hc & F1 & F2 & F3 & F4 & F5).
  pose proof (item_mandatory_lookup s) as (M1 & M2 & M3 & M4 & M5).
  cbv zeta in Hc, F1, F2, F3, F4, F5.
  rewrite Hc, M1, M2, M3, M4, M5. cbn [rbind as_str as_int].
  rewrite F1, F2, F3, F4, F5. cbn [default from_option id].
  rewrite (item_metric_lookup s "recoveryScore" DailySummary.recoveryScore)
    by (cbn; tauto).
  rewrite (item_metric_lookup s "sleepQualityScore"
             DailySummary.sleepQualityScore) by (cbn; tauto).
  rewrite (item_metric_lookup s "totalStrain" DailySummary.totalStrain)
    by (cbn; tauto).
  rewrite (item_metric_lookup s "sleepDuration" DailySummary.sleepDuration)
    by (cbn; tauto).
  rewrite (item_metric_lookup s "averageHRV" DailySummary.averageHRV)
    by (cbn; tauto).
  rewrite (item_metric_lookup s "restingHeartRate"
             DailySummary.restingHeartRate) by (cbn; tauto).
  rewrite (item_metric_lookup s "respiratoryRate"
             DailySummary.respiratoryRate) by (cbn; tauto).
  rewrite !as_opt_float_metric. cbn [rbind].
  unfold truncate_metrics.
  destruct (DailySummary.dataCompleteness s). reflexivity.
Qed.

Lemma truncate_metrics_valid (s : DailySummary.t) :
  valid_summary s -> survives_cut s -> valid_summary (truncate_metrics s).
Proof.
  intros (H1 & H2 & H3 & H4 & H5 & H6 & H7) Hcut.
  unfold valid_summary, truncate_metrics.
  cbn [DailySummary.recoveryScore DailySummary.sleepQualityScore
       DailySummary.totalStrain DailySummary.sleepDuration
       DailySummary.averageHRV DailySummary.restingHeartRate
       DailySummary.respiratoryRate].
  assert (Hpos : forall k f,
             In (k, f) positive_metrics ->
             from_option (fun x => 0 < x)%Q True (option_map cut2 (f s))).
  { intros k f Hin. destruct (f s) as [x|] eqn:E; [|exact I].
    cbn [option_map from_option].
    pose proof (cut2_keeps_cent x (Hcut k f x Hin E)). lra. }
  refine (conj _ (conj _ (conj _ (conj _ (conj _ (conj _ _)))))).
  - destruct (DailySummary.recoveryScore s) as [x|]; [|exact I].
    cbn [option_map from_option] in *.
    pose proof (cut2_nonneg x (proj1 H1)). lra.
  - destruct (DailySummary.sleepQualityScore s) as [x|]; [|exact I].
    cbn [option_map from_option] in *.
    pose proof (cut2_nonneg x (proj1 H2)). lra.
  - destruct (DailySummary.totalStrain s) as [x|]; [|exact I].
    cbn [option_map from_option] in *.
    pose proof (cut2_nonneg x (proj1 H3)). lra.
  - destruct (DailySummary.sleepDuration s) as [x|]; [|exact I].
    cbn [option_map from_option] in *.
    pose proof (cut2_nonneg x H4). lra.
  - apply (Hpos "averageHRV" DailySummary.averageHRV). cbn. tauto.
  - apply (Hpos "restingHeartRate" DailySummary.restingHeartRate).
    cbn. tauto.
  - apply (Hpos "respiratoryRate" DailySummary.respiratoryRate).
    cbn. tauto.
Qed.

Lemma item_read_back
    (strptime : string -> string -> bool) (self : AnalyticsService)
    (s : DailySummary.t) (log : list event) :
  strptime (DailySummary.date s) "%Y-%m-%d" = true ->
  valid_summary s ->
  survives_cut s ->
  item_to_summary strptime self (item_of s) log
    = (Some (truncate_metrics s), log).
Proof.
  intros Hd Hv Hcut.
  unfold item_to_summary. rewrite body_of_item.
  unfold DailySummary.new, DailySummary.validate_date_format.
  change (DailySummary.date (truncate_metrics s)) with (DailySummary.date s).
  rewrite Hd.
  rewrite (proj2 (fields_ok_valid _) (truncate_metrics_valid s Hv Hcut)).
  reflexivity.
Qed.

(** X9. A constructed summary whose strictly positive fields are at
    least 0.01 is read back from the item built for it: the conversion
    succeeds without printing and gives the same summary with every
    present optional metric cut to two decimals. *)
Theorem X9_item_round_trip
    (strptime : string -> string -> bool) (self : AnalyticsService)
    (s : DailySummary.t) (log : list event) :
  strptime (DailySummary.date s) "%Y-%m-%d" = true ->
  valid_summary s ->
  survives_cut s ->
  item_to_summary strptime self (item_of s) log
    = (Some (truncate_metrics s), log) /\
  summary_item s = Ok (item_of s).
Proof.
  intros Hd Hv Hcut.
  split; [apply item_read_back; assumption | apply summary_item_ok].
Qed.

Lemma sample_summary_survives : survives_cut Sample.sample_summary.
Proof.
  intros k f x Hin Hx. cbn in Hin.
  destruct Hin as [[= <- <-]|[[= <- <-]|[[= <- <-]|[]]]];
    try discriminate.
  injection Hx as <-. concrete.
Defined.

Lemma sample_summary_valid : valid_summary Sample.sample_summary.
Proof. concrete. Defined.

Lemma X9_item_round_trip_witness :
  item_to_summary Sample.strptime Sample.service
    (item_of Sample.sample_summary) []
    = (Some (truncate_metrics Sample.sample_summary), []).
Proof.
  apply (X9_item_round_trip Sample.strptime Sample.service
           Sample.sample_summary [] eq_refl sample_summary_valid
           sample_summary_survives).
Defined.

Lemma new_rejects (strptime : string -> string -> bool)
    (s : DailySummary.t) :
  DailySummary.fields_ok s = false ->
  exists msg, DailySummary.new strptime s = Raise (ValidationError msg).
Proof.
  intros H. unfold DailySummary.new, DailySummary.validate_date_format.
  destruct (strptime _ _); cbn; [rewrite H|]; eauto.
Qed.

(** X10. A present averageHRV, restingHeartRate or respiratoryRate
    below 0.01 is stored as 0 and cannot be read back: converting the
    item built for such a summary prints an error and yields None. *)
Theorem X10_small_positive_metric_is_lost
    (strptime : string -> string -> bool) (self : AnalyticsService)
    (s : DailySummary.t) (log : list event)
    (k : string) (f : DailySummary.t -> option Q) (x : Q) :
  In (k, f) positive_metrics ->
  f s = Some x ->
  (0 < x < 1 # 100)%Q ->
  (exists y : Q, item_of s !! k = Some (AFloat y) /\ (y == 0)%Q) /\
  exists msg : string,
    item_to_summary strptime self (item_of s) log
      = (None, log ++ [EvPrint msg]).
Proof.
  intros Hin Hx [H0 H1].
  assert (Hzero : (cut2 x == 0)%Q) by (apply cut2_small; lra).
  split.
  - exists (cut2 x). split; [|exact Hzero].
    rewrite (item_metric_lookup s k f), Hx; [reflexivity|].
    cbn in Hin |- *. tauto.
  - unfold item_to_summary. rewrite body_of_item.
    destruct (new_rejects strptime (truncate_metrics s)) as [msg Hmsg].
    + destruct (DailySummary.fields_ok (truncate_metrics s)) eqn:Hok;
        [|reflexivity].
      exfalso. apply fields_ok_valid in Hok.
      destruct Hok as (_ & _ & _ & _ & H5 & H6 & H7).
      unfold truncate_metrics in H5, H6, H7.
      cbn [DailySummary.averageHRV DailySummary.restingHeartRate
           DailySummary.respiratoryRate] in H5, H6, H7.
      cbn in Hin.
      destruct Hin as [[= <- <-]|[[= <- <-]|[[= <- <-]|[]]]];
        [rewrite Hx in H5; cbn in H5
        |rewrite Hx in H6; cbn in H6
        |rewrite Hx in H7; cbn in H7]; lra.
    + rewrite Hmsg. eauto.
Qed.

Lemma X10_small_metric_witness :
  exists msg : string,
    item_to_summary Sample.strptime Sample.service
      (item_of (DailySummary.mk "test-user" "summary#2024-02-06" "2024-02-06"
                  None None None None (Some (1 # 1000)) None None
                  (DataCompleteness.mk false false false false true)
                  1700000000 1702592000)) []
      = (None, [EvPrint msg]).
Proof.
  assert (Hr : (0 < 1 # 1000 < 1 # 100)%Q) by concrete.
  apply (X10_small_positive_metric_is_lost Sample.strptime Sample.service
           _ [] "averageHRV" DailySummary.averageHRV (1 # 1000)).
  - cbn. tauto.
  - reflexivity.
  - exact Hr.
Defined.

(** X11. An item that lacks userId, recordId, date, computedAt or ttl
    is not converted: [_item_to_summary] prints one error and yields
    None. *)
Theorem X11_missing_key_is_skipped
    (strptime : string -> string -> bool) (self : AnalyticsService)
    (item : Item) (log : list event) (k : string) :
  In k mandatory_keys ->
  item !! k = None ->
  exists msg : string,
    item_to_summary strptime self item log = (None, log ++ [EvPrint msg]).
Proof.
  intros Hin Hk.
  assert (Hraise : exists e, item_to_summary_body strptime item = Raise e).
  { unfold item_to_summary_body, getitem.
    destruct (item !! "dataCompleteness") as [[]|];
      cbn [rbind]; try (eexists; reflexivity).
    all: destruct (item !! "userId") eqn:E1; cbn [rbind];
      [|eexists; reflexivity].
    all: destruct (item !! "recordId") eqn:E2; cbn [rbind];
      [|eexists; reflexivity].
    all: destruct (item !! "date") eqn:E3; cbn [rbind];
      [|eexists; reflexivity].
    all: destruct (item !! "computedAt") eqn:E4; cbn [rbind];
      [|eexists; reflexivity].
    all: destruct (item !! "ttl") eqn:E5; cbn [rbind];
      [|eexists; reflexivity].
    all: exfalso; cbn in Hin;
      destruct Hin as [<-|[<-|[<-|[<-|[<-|[]]]]]]; congruence. }
  destruct Hraise as [e He].
  unfold item_to_summary. rewrite He. eauto.
Qed.

Lemma X11_missing_key_witness :
  exists msg : string,
    item_to_summary Sample.strptime Sample.service
      (delete "ttl" (item_of Sample.sample_summary)) []
      = (None, [EvPrint msg]).
Proof.
  apply (X11_missing_key_is_skipped Sample.strptime Sample.service
           _ [] "ttl").
  - cbn. tauto.
  - apply lookup_delete_eq.
Defined.

Lemma rbind_inv {A B : Type} (m : result A) (k : A -> result B) (b : B) :
  rbind m k = Ok b -> exists a, m = Ok a /\ k a = Ok b.
Proof. destruct m; cbn; [eauto | discriminate]. Qed.

Lemma getitem_as_str (item : Item) (key : string) (v : AttrValue)
    (x : string) :
  getitem item key = Ok v -> as_str v = Ok x -> item !! key = Some (AStr x).
Proof.
  unfold getitem. destruct (item !! key); [|discriminate].
  intros [= ->]. destruct v; cbn; try discriminate. intros [= ->]. reflexivity.
Qed.

Lemma getitem_as_int (item : Item) (key : string) (v : AttrValue) (x : Z) :
  getitem item key = Ok v -> as_int v = Ok x -> item !! key = Some (AInt x).
Proof.
  unfold getitem. destruct (item !! key); [|discriminate].
  intros [= ->]. destruct v; cbn; try discriminate. intros [= ->]. reflexivity.
Qed.

Lemma body_ok_inv (strptime : string -> string -> bool)
    (item : Item) (s : DailySummary.t) :
  item_to_summary_body strptime item = Ok s ->
  valid_summary s /\
  strptime (DailySummary.date s) "%Y-%m-%d" = true /\
  item !! "userId" = Some (AStr (DailySummary.userId s)) /\
  item !! "recordId" = Some (AStr (DailySummary.recordId s)) /\
  item !! "date" = Some (AStr (DailySummary.date s)) /\
  item !! "computedAt" = Some (AInt (DailySummary.computedAt s)) /\
  item !! "ttl" = Some (AInt (DailySummary.ttl s)).
Proof.
  unfold item_to_summary_body. intros H.
  repeat match type of H with
         | rbind _ _ = Ok _ =>
             let a := fresh "a" in
             let Ha := fresh "Ha" in
             apply rbind_inv in H as (a & Ha & H)
         end.
  apply new_inv in H as (-> & Hd & Hok).
  apply fields_ok_valid in Hok.
  cbn [DailySummary.date DailySummary.userId DailySummary.recordId
       DailySummary.computedAt DailySummary.ttl] in *.
  split; [exact Hok|]. split; [exact Hd|].
  repeat split;
    first [eapply getitem_as_str; eassumption
          |eapply getitem_as_int; eassumption].
Qed.

(** X12. A summary that [_item_to_summary] returns was converted without
    printing, satisfies the declared field constraints, has a date the
    validator accepts, and carries the item's userId, recordId, date,
    computedAt and ttl. *)
Theorem X12_converted_summary_is_valid
    (strptime : string -> string -> bool) (self : AnalyticsService)
    (item : Item) (log log' : list event) (s : DailySummary.t) :
  item_to_summary strptime self item log = (Some s, log') ->
  log' = log /\
  valid_summary s /\
  strptime (DailySummary.date s) "%Y-%m-%d" = true /\
  item !! "userId" = Some (AStr (DailySummary.userId s)) /\
  item !! "recordId" = Some (AStr (DailySummary.recordId s)) /\
  item !! "date" = Some (AStr (DailySummary.date s)) /\
  item !! "computedAt" = Some (AInt (DailySummary.computedAt s)) /\
  item !! "ttl" = Some (AInt (DailySummary.ttl s)).
Proof.
  unfold item_to_summary.
  destruct (item_to_summary_body strptime item) as [s0|e] eqn:E;
    [|discriminate].
  intros [= -> ->]. split; [reflexivity|]. apply (body_ok_inv _ _ _ E).
Qed.

Lemma X12_converted_summary_witness :
  valid_summary (truncate_metrics Sample.sample_summary) /\
  item_of Sample.sample_summary !! "userId" = Some (AStr "test-user").
Proof.
  destruct (X12_converted_summary_is_valid Sample.strptime Sample.service
              (item_of Sample.sample_summary) [] []
              (truncate_metrics Sample.sample_summary))
    as (_ & Hv & _ & Hu & _).
  - apply (item_read_back Sample.strptime Sample.service
             Sample.sample_summary [] eq_refl sample_summary_valid
             sample_summary_survives).
  - split; [exact Hv | exact Hu].
Defined.

(** ** Querying summaries *)

Lemma convert_items_spec (strptime : string -> string -> bool)
    (self : AnalyticsService) (items : list Item)
    (acc : list DailySummary.t) (log : list event) :
  exists prints : list event,
    convert_items strptime self items acc log
      = (acc ++ convertible strptime items, log ++ prints) /\
    Forall is_print prints /\
    (length (convertible strptime items) + length prints)%nat = length items.
Proof.
  revert acc log. induction items as [|item items IH]; intros acc log.
  - exists []. cbn. rewrite !app_nil_r. repeat split. constructor.
  - cbn [convert_items]. unfold item_to_summary, convertible.
    cbn [omap list_omap].
    destruct (item_to_summary_body strptime item) as [s|e].
    + destruct (IH (acc ++ [s]) log) as (prints & Heq & Hp & Hlen).
      exists prints. rewrite Heq. rewrite <- app_assoc.
      split; [reflexivity|]. split; [exact Hp|].
      unfold convertible in Hlen. cbn [length]. lia.
    + destruct (IH acc
                  (log ++ [EvPrint ("Error converting item to summary: "
                                    +:+ exn_str e)]))
        as (prints & Heq & Hp & Hlen).
      eexists (_ :: prints). rewrite Heq. rewrite <- app_assoc.
      split; [reflexivity|]. split; [constructor; [exact I | exact Hp]|].
      unfold convertible in Hlen. cbn [length]. lia.
Qed.

Lemma get_unfold (strptime : string -> string -> bool)
    (self : AnalyticsService) (client : DynamoDBClient)
    (today thirty_days_ago user_id : string)
    (start_date end_date : option string) (limit : Z) (log : list event) :
  dynamodb_client self = Some client ->
  get_daily_summaries strptime self today thirty_days_ago user_id
      start_date end_date limit log =
    let args := query_args self today thirty_days_ago user_id
                  start_date end_date limit in
    match query client args with
    | Raise e =>
        (Ok [],
         (log ++ [EvQuery args])
         ++ [EvPrint ("Error retrieving daily summaries: " +:+ exn_str e)])
    | Ok response =>
        let (summaries, log') :=
          convert_items strptime self (default [] (Items response)) []
            (log ++ [EvQuery args]) in
        (Ok summaries, log')
    end.
Proof.
  intros Hc. unfold get_daily_summaries. rewrite Hc. reflexivity.
Qed.

(** X13. With a configured client [get_daily_summaries] does not raise.
    It sends one query: for the summaries table, with the given limit,
    most recent first, for the user and the keys ["summary#" + start] to
    ["summary#" + end], where a missing or empty start date stands for
    30 days ago and a missing or empty end date for today.  Everything
    else it does is printing, and if the query raises the result is the
    empty list. *)
Theorem X13_query_sent
    (strptime : string -> string -> bool)
    (self : AnalyticsService) (client : DynamoDBClient)
    (today thirty_days_ago user_id : string)
    (start_date end_date : option string) (limit : Z) (log : list event) :
  dynamodb_client self = Some client ->
  exists (args : QueryArgs) (summaries : list DailySummary.t)
         (prints : list event),
    get_daily_summaries strptime self today thirty_days_ago user_id
        start_date end_date limit log
      = (Ok summaries, log ++ EvQuery args :: prints) /\
    Forall is_print prints /\
    (forall e, query client args = Raise e -> summaries = []) /\
    TableName args = summaries_table self /\
    Limit args = limit /\
    ScanIndexForward args = false /\
    ExpressionAttributeValues args !! ":userId" = Some user_id /\
    ExpressionAttributeValues args !! ":start" =
      Some ("summary#" +:+
            match start_date with
            | Some d => if String.eqb d "" then thirty_days_ago else d
            | None => thirty_days_ago
            end) /\
    ExpressionAttributeValues args !! ":end" =
      Some ("summary#" +:+
            match end_date with
            | Some d => if String.eqb d "" then today else d
            | None => today
            end).
Proof.
  intros Hc.
  exists (query_args self today thirty_days_ago user_id start_date end_date
            limit).
  rewrite (get_unfold _ _ client) by exact Hc. cbv zeta.
  set (args := query_args _ _ _ _ _ _ _).
  assert (Hargs :
    TableName args = summaries_table self /\
    Limit args = limit /\
    ScanIndexForward args = false /\
    ExpressionAttributeValues args !! ":userId" = Some user_id /\
    ExpressionAttributeValues args !! ":start" =
      Some ("summary#" +:+
            match start_date with
            | Some d => if String.eqb d "" then thirty_days_ago else d
            | None => thirty_days_ago
            end) /\
    ExpressionAttributeValues args !! ":end" =
      Some ("summary#" +:+
            match end_date with
            | Some d => if String.eqb d "" then today else d
            | None => today
            end)).
  { unfold args, query_args. cbn [TableName Limit ScanIndexForward
                                   ExpressionAttributeValues].
    refine (conj eq_refl (conj eq_refl (conj eq_refl (conj _ (conj _ _))))).
    - lookup_item. reflexivity.
    - lookup_item. f_equal. f_equal.
      destruct start_date as [d|]; [|reflexivity]. cbn.
      destruct (String.eqb d ""); reflexivity.
    - lookup_item. f_equal. f_equal.
      destruct end_date as [d|]; [|reflexivity]. cbn.
      destruct (String.eqb d ""); reflexivity. }
  destruct (query client args) as [response|e].
  - destruct (convert_items_spec strptime self (default [] (Items response))
                [] (log ++ [EvQuery args])) as (prints & Heq & Hp & _).
    rewrite Heq. exists (convertible strptime (default [] (Items response))),
      prints.
    rewrite <- app_assoc. split; [reflexivity|]. split; [exact Hp|].
    split; [discriminate | exact Hargs].
  - eexists [], [_]. rewrite <- app_assoc.
    split; [reflexivity|]. split; [repeat constructor|].
    split; [reflexivity | exact Hargs].
Qed.

Lemma X13_query_sent_witness :
  exists (args : QueryArgs) (summaries : list DailySummary.t)
         (prints : list event),
    get_daily_summaries Sample.strptime Sample.service "2024-02-06"
        "2024-01-07" "test-user" None (Some "") 30 []
      = (Ok summaries, EvQuery args :: prints) /\
    ExpressionAttributeValues args !! ":start" = Some "summary#2024-01-07" /\
    ExpressionAttributeValues args !! ":end" = Some "summary#2024-02-06".
Proof.
  destruct (X13_query_sent Sample.strptime Sample.service
              Sample.mock_dynamodb "2024-02-06" "2024-01-07" "test-user"
              None (Some "") 30 [] eq_refl)
    as (args & l & prints & Hget & _ & _ & _ & _ & _ & _ & Hs & He).
  exists args, l, prints. split; [exact Hget|]. split; [exact Hs | exact He].
Defined.

Lemma In_convertible (strptime : string -> string -> bool)
    (items : list Item) (s : DailySummary.t) :
  In s (convertible strptime items) <->
  exists item, In item items /\ item_to_summary_body strptime item = Ok s.
Proof.
  unfold convertible. induction items as [|item items IH];
    cbn [omap list_omap In].
  - split; [intros [] | intros (item & [] & _)].
  - destruct (item_to_summary_body strptime item) as [s0|e] eqn:E.
    + cbn [In]. rewrite IH. split.
      * intros [<-|(it & Hin & Hit)]; [eauto | eauto].
      * intros (it & [<-|Hin] & Hit); [left; congruence | right; eauto].
    + rewrite IH. split.
      * intros (it & Hin & Hit). eauto.
      * intros (it & [<-|Hin] & Hit); [congruence | eauto].
Qed.

(** X14. When the query answers, [get_daily_summaries] returns exactly
    the summaries the items of the response convert to, in the order of
    the response: an item that fails to convert is skipped with one
    printed error and does not abort the others, and every summary
    returned satisfies the field constraints and has an accepted date.
    A response without [Items] gives the empty list. *)
Theorem X14_query_result
    (strptime : string -> string -> bool)
    (self : AnalyticsService) (client : DynamoDBClient)
    (today thirty_days_ago user_id : string)
    (start_date end_date : option string) (limit : Z) (log : list event)
    (response : QueryResponse) :
  dynamodb_client self = Some client ->
  query client (query_args self today thirty_days_ago user_id
                  start_date end_date limit) = Ok response ->
  let items := default [] (Items response) in
  exists (summaries : list DailySummary.t) (prints : list event),
    get_daily_summaries strptime self today thirty_days_ago user_id
        start_date end_date limit log
      = (Ok summaries,
         log ++ EvQuery (query_args self today thirty_days_ago user_id
                           start_date end_date limit) :: prints) /\
    summaries = convertible strptime items /\
    (forall s, In s summaries <->
               exists item, In item items /\
                            item_to_summary_body strptime item = Ok s) /\
    Forall is_print prints /\
    (length summaries + length prints)%nat = length items /\
    Forall (fun s => valid_summary s /\
                     strptime (DailySummary.date s) "%Y-%m-%d" = true)
           summaries.
Proof.
  intros Hc Hq items.
  rewrite (get_unfold _ _ client) by exact Hc. cbv zeta. rewrite Hq.
  fold items.
  destruct (convert_items_spec strptime self items []
              (log ++ [EvQuery (query_args self today thirty_days_ago
                                  user_id start_date end_date limit)]))
    as (prints & Heq & Hp & Hlen).
  rewrite Heq. exists (convertible strptime items), prints.
  rewrite <- app_assoc.
  split; [reflexivity|]. split; [reflexivity|].
  split; [intros s; apply In_convertible|].
  split; [exact Hp|]. split; [exact Hlen|].
  apply List.Forall_forall. intros s Hs.
  apply In_convertible in Hs as (item & _ & Hitem).
  apply body_ok_inv in Hitem as (Hv & Hd & _). split; assumption.
Qed.

Lemma X14_query_result_witness :
  exists prints : list event,
    get_daily_summaries Sample.strptime
        (init None
           (Some (client_holding
                    [item_of Sample.sample_summary;
                     delete "ttl" (item_of Sample.sample_summary)])))
        "2024-02-06" "2024-01-07" "test-user" None None 30 []
      = (Ok [truncate_metrics Sample.sample_summary],
         EvQuery (query_args
                    (init None
                       (Some (client_holding
                                [item_of Sample.sample_summary;
                                 delete "ttl"
                                   (item_of Sample.sample_summary)])))
                    "2024-02-06" "2024-01-07" "test-user" None None 30)
         :: prints) /\
    length prints = 1%nat.
Proof.
  destruct (X14_query_result Sample.strptime
              (init None
                 (Some (client_holding
                          [item_of Sample.sample_summary;
                           delete "ttl" (item_of Sample.sample_summary)])))
              (client_holding
                 [item_of Sample.sample_summary;
                  delete "ttl" (item_of Sample.sample_summary)])
              "2024-02-06" "2024-01-07" "test-user" None None 30 []
              _ eq_refl eq_refl)
    as (l & prints & Hget & Hl & _ & _ & Hlen & _).
  exists prints.
  assert (El : l = [truncate_metrics Sample.sample_summary]).
  { rewrite Hl. vm_compute. reflexivity. }
  rewrite El in Hget, Hlen. split; [exact Hget|].
  cbn [length default from_option id Items client_holding] in Hlen.
  injection Hlen as Hlen. exact Hlen.
Defined.

Lemma convertible_stored (strptime : string -> string -> bool)
    (ss : list DailySummary.t) :
  Forall (fun s => strptime (DailySummary.date s) "%Y-%m-%d" = true /\
                   valid_summary s /\ survives_cut s) ss ->
  convertible strptime (map item_of ss) = map truncate_metrics ss.
Proof.
  induction 1 as [|s ss (Hd & Hv & Hcut) _ IH]; [reflexivity|].
  unfold convertible in *. cbn [map omap list_omap].
  rewrite body_of_item.
  unfold DailySummary.new, DailySummary.validate_date_format.
  change (DailySummary.date (truncate_metrics s)) with (DailySummary.date s).
  rewrite Hd.
  rewrite (proj2 (fields_ok_valid _) (truncate_metrics_valid s Hv Hcut)).
  rewrite IH. reflexivity.
Qed.

(** X15. Reading back what was stored: if the query answers with the
    items built for a list of constructed summaries whose strictly
    positive fields are at least 0.01, [get_daily_summaries] returns
    those summaries, in order, with their optional metrics cut to two
    decimals, and prints nothing. *)
Theorem X15_store_then_query
    (strptime : string -> string -> bool)
    (self : AnalyticsService) (client : DynamoDBClient)
    (today thirty_days_ago user_id : string)
    (start_date end_date : option string) (limit : Z) (log : list event)
    (ss : list DailySummary.t) :
  dynamodb_client self = Some client ->
  query client (query_args self today thirty_days_ago user_id
                  start_date end_date limit)
    = Ok (mkQueryResponse (Some (map item_of ss))) ->
  Forall (fun s => strptime (DailySummary.date s) "%Y-%m-%d" = true /\
                   valid_summary s /\ survives_cut s) ss ->
  get_daily_summaries strptime self today thirty_days_ago user_id
      start_date end_date limit log
    = (Ok (map truncate_metrics ss),
       log ++ [EvQuery (query_args self today thirty_days_ago user_id
                          start_date end_date limit)]).
Proof.
  intros Hc Hq Hss.
  rewrite (get_unfold _ _ client) by exact Hc. cbv zeta. rewrite Hq.
  cbn [Items default from_option id].
  destruct (convert_items_spec strptime self (map item_of ss) []
              (log ++ [EvQuery (query_args self today thirty_days_ago
                                  user_id start_date end_date limit)]))
    as (prints & Heq & _ & Hlen).
  rewrite Heq. rewrite (convertible_stored strptime ss Hss) in Hlen |- *.
  rewrite !length_map in Hlen.
  assert (prints = []) as -> by (destruct prints; [reflexivity | cbn in Hlen; lia]).
  rewrite app_nil_r. reflexivity.
Qed.

Lemma X15_store_then_query_witness :
  get_daily_summaries Sample.strptime
      (init None (Some (client_holding [item_of Sample.sample_summary])))
      "2024-02-06" "2024-01-07" "test-user" None None 30 []
    = (Ok [truncate_metrics Sample.sample_summary],
       [EvQuery (query_args
                   (init None
                      (Some (client_holding [item_of Sample.sample_summary])))
                   "2024-02-06" "2024-01-07" "test-user" None None 30)]).
Proof.
  apply (X15_store_then_query Sample.strptime
           (init None (Some (client_holding [item_of Sample.sample_summary])))
           (client_holding [item_of Sample.sample_summary])
           "2024-02-06" "2024-01-07" "test-user" None None 30 []
           [Sample.sample_summary] eq_refl eq_refl).
  apply List.Forall_cons; [|apply List.Forall_nil].
  split; [reflexivity|].
  split; [exact sample_summary_valid | exact sample_summary_survives].
Defined.
